(** * Slide content generator (ppt-generator): a shallow embedding

    The repository is a single React component, [App], kept in two
    near-identical variants: [src/src/App.jsx] and an unnamed second copy
    ([src/unnamed/part_000]).  This development embeds the logical core of
    the component -- the six state fields, the three handlers
    [handleImageUpload], [generateSlideContent], [copyContentToClipboard],
    the two effects and the conditional rendering of the result panel --
    and settles the properties stated about it.

    Layout:
    - [JS]: the JavaScript values the component manipulates, abrupt
      completions, property access, [ToBoolean], [ToString];
    - [JSON]: [JSON.parse] and [JSON.stringify];
    - [React]: the component state, the setter trace, the panel tree;
    - [AppJsx], [Part000]: the two variants, each translated from its file;
    - [Runtime]: commits, the effect on [showToast] and its timer;
    - [Components], [Session]: the helper components and their mounting,
      selections and clicks in sequence;
    - the vocabulary of the statements, then the theorems: the parser's
      fuel, image intake, clipboard text, content request, presentation,
      clipboard export, the toast, the two variants.

    A handler is a function from the state it closes over, and from the
    way the platform call it awaits settles, to the trace of what it
    does; the state after the handler is the trace applied to the state
    before it.  The theorems are stated on [AppJsx]; the two variants
    are equal function by function ([C9_variants_agree]). *)

From Stdlib Require Import String Ascii List Bool Arith NArith ZArith Lia DecimalString.
Import ListNotations.
Open Scope string_scope.
Set Warnings "-register-all".

(* ================================================================== *)
(** * JavaScript values *)
(* ================================================================== *)

Module JS.

(** A thrown value.  Everything thrown in this program is an [Error]
    object of some class; the program reads only [error.message]. *)
Record JsError := mkError { name : string; message : string }.

(** The outcome of evaluating an expression: a value or a [throw]. *)
Inductive Completion (A : Type) : Type :=
| Normal (a : A)
| Throw (e : JsError).
Arguments Normal {A} a.
Arguments Throw {A} e.

Definition bind {A B} (c : Completion A) (k : A -> Completion B) : Completion B :=
  match c with
  | Normal a => k a
  | Throw e => Throw e
  end.

Notation "x <- c ;; k" := (bind c (fun x => k))
  (at level 61, c at next level, right associativity).

(** The values that [JSON.parse] and [response.json()] can produce, plus
    [undefined].  A Number is represented by the string that [ToString]
    gives for it ("0", "12", "0.5", "1e+21", "NaN", ...): that printing is
    injective on doubles up to the sign of zero, and the program observes
    a number only through [ToString] and [ToBoolean].  An object is the
    list of its own data properties in insertion order. *)
Inductive Value : Type :=
| JUndefined
| JNull
| JBool (b : bool)
| JNumber (repr : string)
| JString (s : string)
| JArray (items : list Value)
| JObject (props : list (string * Value)).

Definition TypeError (msg : string) : JsError := mkError "TypeError" msg.
Definition SyntaxError (msg : string) : JsError := mkError "SyntaxError" msg.
Definition Error (msg : string) : JsError := mkError "Error" msg.

(** [v === undefined || v === null], the test of [?.]. *)
Definition nullish (v : Value) : bool :=
  match v with
  | JUndefined | JNull => true
  | _ => false
  end.

(** ToBoolean: [undefined], [null], [false], [0], [NaN] and [""] are
    falsy, everything else (every array and object included) is truthy. *)
Definition ToBoolean (v : Value) : bool :=
  match v with
  | JUndefined | JNull => false
  | JBool b => b
  | JNumber r => negb ((r =? "0") || (r =? "NaN"))
  | JString s => negb (s =? "")
  | JArray _ | JObject _ => true
  end.

Fixpoint lookup (props : list (string * Value)) (key : string) : option Value :=
  match props with
  | [] => None
  | (k, v) :: rest => if k =? key then Some v else lookup rest key
  end.

(** Decimal printing of a non-negative integer, as [ToString] prints it. *)
Definition decimal (n : N) : string := NilZero.string_of_uint (N.to_uint n).

(** [v.key] for a key that no prototype defines (all the names this
    program reads: candidates, content, parts, text, title, bulletPoints).
    Reading a property of [undefined] or [null] throws a TypeError (the
    message is worded as V8 words it); an object yields its own property
    or [undefined]; arrays and primitives have no such property. *)
Definition get (v : Value) (key : string) : Completion Value :=
  match v with
  | JUndefined =>
      Throw (TypeError ("Cannot read properties of undefined (reading '" ++ key ++ "')"))
  | JNull =>
      Throw (TypeError ("Cannot read properties of null (reading '" ++ key ++ "')"))
  | JObject props =>
      Normal (match lookup props key with Some x => x | None => JUndefined end)
  | _ => Normal JUndefined
  end.

(** [v[i]] for a literal index [i]: the i-th item of an array, the i-th
    character of a string (as a one-character string), the property named
    by the decimal of [i] of an object. *)
Definition get_index (v : Value) (i : nat) : Completion Value :=
  match v with
  | JUndefined =>
      Throw (TypeError ("Cannot read properties of undefined (reading '"
                        ++ decimal (N.of_nat i) ++ "')"))
  | JNull =>
      Throw (TypeError ("Cannot read properties of null (reading '"
                        ++ decimal (N.of_nat i) ++ "')"))
  | JArray items => Normal (nth i items JUndefined)
  | JString s =>
      Normal (match String.get i s with
              | Some c => JString (String c EmptyString)
              | None => JUndefined
              end)
  | JObject props =>
      Normal (match lookup props (decimal (N.of_nat i)) with
              | Some x => x
              | None => JUndefined
              end)
  | _ => Normal JUndefined
  end.

(** One link of an optional chain, [base?.access]: when [base] is
    nullish the whole remaining chain is skipped and yields [undefined]. *)
Definition optional (base : Value) (rest : Value -> Completion Value)
  : Completion Value :=
  if nullish base then Normal JUndefined else rest base.

Definition has_own (props : list (string * Value)) (key : string) : bool :=
  match lookup props key with Some _ => true | None => false end.

(** ToString, as applied by template literals and by [JSON.parse] to its
    argument.  An array prints its items joined by commas, a nullish item
    as the empty string.  A plain object prints as [[object Object]];
    when it carries an own property named toString (never callable in
    data that came out of JSON) the conversion finds no primitive and
    throws. *)
Fixpoint ToString (v : Value) : Completion string :=
  match v with
  | JUndefined => Normal "undefined"
  | JNull => Normal "null"
  | JBool true => Normal "true"
  | JBool false => Normal "false"
  | JNumber r => Normal r
  | JString s => Normal s
  | JArray items =>
      (fix join (l : list Value) : Completion string :=
         match l with
         | [] => Normal ""
         | x :: rest =>
             s <- (if nullish x then Normal "" else ToString x) ;;
             match rest with
             | [] => Normal s
             | _ :: _ => r <- join rest ;; Normal (s ++ "," ++ r)
             end
         end) items
  | JObject props =>
      if has_own props "toString"
      then Throw (TypeError "Cannot convert object to primitive value")
      else Normal "[object Object]"
  end.

(** [s.split(sep)] for a one-character separator. *)
Fixpoint split (sep : ascii) (s : string) : list string :=
  match s with
  | EmptyString => [EmptyString]
  | String c rest =>
      if Ascii.eqb c sep then EmptyString :: split sep rest
      else match split sep rest with
           | [] => [String c EmptyString]
           | piece :: pieces => String c piece :: pieces
           end
  end.

(** [pieces[i]] on an array of strings: out of range reads [undefined]. *)
Definition item (pieces : list string) (i : nat) : Value :=
  match nth_error pieces i with
  | Some p => JString p
  | None => JUndefined
  end.

(** [receiver.map(f)] where [f] builds a string: [Array.prototype.map]
    calls [f] on the items in order and stops at the first throw.  Only
    arrays have a [map] method; on anything else the call itself throws
    ([expr] is the source text of the receiver, which V8 quotes). *)
Fixpoint map_items (f : Value -> Completion string) (l : list Value)
  : Completion (list string) :=
  match l with
  | [] => Normal []
  | x :: rest => y <- f x ;; ys <- map_items f rest ;; Normal (y :: ys)
  end.

Definition call_map (expr : string) (receiver : Value)
    (f : Value -> Completion string) : Completion (list string) :=
  match receiver with
  | JArray l => map_items f l
  | JUndefined =>
      Throw (TypeError "Cannot read properties of undefined (reading 'map')")
  | JNull =>
      Throw (TypeError "Cannot read properties of null (reading 'map')")
  | _ => Throw (TypeError (expr ++ ".map is not a function"))
  end.

(** [Array.prototype.join] on an array of strings. *)
Definition join (sep : string) (pieces : list string) : string :=
  String.concat sep pieces.

End JS.
Export JS.

(* ================================================================== *)
(** * JSON.parse and JSON.stringify *)
(* ================================================================== *)

Module JSON.

Definition is_digit (c : ascii) : bool :=
  let n := nat_of_ascii c in (48 <=? n)%nat && (n <=? 57)%nat.

(** Space, tab, line feed, carriage return. *)
Definition is_ws (c : ascii) : bool :=
  (c =? " ")%char || (c =? "009")%char || (c =? "010")%char || (c =? "013")%char.

Fixpoint skip_ws (s : string) : string :=
  match s with
  | String c r => if is_ws c then skip_ws r else s
  | EmptyString => s
  end.

(** The longest prefix of decimal digits, and what follows it. *)
Fixpoint span_digits (s : string) : string * string :=
  match s with
  | String c r =>
      if is_digit c
      then let (ds, r') := span_digits r in (String c ds, r')
      else (EmptyString, s)
  | EmptyString => (EmptyString, EmptyString)
  end.

(** If [s] starts with [word], what follows it. *)
Fixpoint expect (word s : string) : option string :=
  match word, s with
  | EmptyString, _ => Some s
  | String w word', String c s' => if Ascii.eqb w c then expect word' s' else None
  | String _ _, EmptyString => None
  end.

(** The parts of a number token.  The integer part is a single 0 or a
    non-zero digit followed by digits. *)
Definition lex_int (s : string) : option (string * string) :=
  match s with
  | String c r =>
      if (c =? "0")%char then Some (String c EmptyString, r)
      else if is_digit c
           then let (ds, r') := span_digits r in Some (String c ds, r')
           else None
  | EmptyString => None
  end.

(** The optional fraction: a dot and at least one digit. *)
Definition lex_frac (s : string) : option (string * string) :=
  match s with
  | String c r =>
      if (c =? ".")%char then
        let (ds, r') := span_digits r in
        if ds =? "" then None else Some (ds, r')
      else Some (EmptyString, s)
  | EmptyString => Some (EmptyString, s)
  end.

(** The optional exponent: e or E, an optional sign, at least one
    digit. *)
Definition lex_exp (s : string) : option (string * string) :=
  match s with
  | String c r =>
      if (c =? "e")%char || (c =? "E")%char then
        let (sign, r1) :=
          match r with
          | String c1 r1 =>
              if (c1 =? "+")%char then ("+", r1)
              else if (c1 =? "-")%char then ("-", r1)
              else ("", r)
          | EmptyString => ("", r)
          end in
        let (ds, r') := span_digits r1 in
        if ds =? "" then None else Some ("e" ++ sign ++ ds, r')
      else Some (EmptyString, s)
  | EmptyString => Some (EmptyString, s)
  end.

(** A number token: an optional minus sign, the integer part, the
    optional fraction, the optional exponent.  Returns the sign, the
    three parts and the rest of the input. *)
Definition lex_number (s : string)
  : option (bool * string * string * string * string) :=
  let (neg, s1) :=
    match s with
    | String c r => if (c =? "-")%char then (true, r) else (false, s)
    | EmptyString => (false, s)
    end in
  match lex_int s1 with
  | Some (int, s2) =>
      match lex_frac s2 with
      | Some (frac, s3) =>
          match lex_exp s3 with
          | Some (exp, s4) => Some (neg, int, frac, exp, s4)
          | None => None
          end
      | None => None
      end
  | None => None
  end.

(** Numbers are IEEE 754 doubles.  A number token denotes the double
    nearest to its decimal value (a tie going to the even significand,
    overflow to Infinity, underflow to zero), and [ToString] prints a
    double with the fewest digits that read back as the same double.
    Both are computed here on exact integers. *)
Module Double.

(** The value of a run of decimal digits. *)
Fixpoint digits_value (acc : Z) (s : string) : Z :=
  match s with
  | EmptyString => acc
  | String c r => digits_value (10 * acc + (Z.of_nat (nat_of_ascii c) - 48))%Z r
  end.

(** The value of an exponent part: e, an optional sign, digits. *)
Definition exponent_value (exp : string) : Z :=
  match exp with
  | EmptyString => 0%Z
  | String _ r =>
      match r with
      | String c ds =>
          if (c =? "-")%char then (- digits_value 0 ds)%Z
          else if (c =? "+")%char then digits_value 0 ds
          else digits_value 0 r
      | EmptyString => 0%Z
      end
  end.

(** [num / den] rounded to the nearest integer, a tie going to the even
    one. *)
Definition round_half_even (num den : Z) : Z :=
  let q := (num / den)%Z in
  let r := (num mod den)%Z in
  match (2 * r ?= den)%Z with
  | Lt => q
  | Gt => (q + 1)%Z
  | Eq => if Z.even q then q else (q + 1)%Z
  end.

(** [p / (q * 2^k)] as a fraction. *)
Definition scaled (p q k : Z) : Z * Z :=
  if (0 <=? k)%Z then (p, (q * 2 ^ k)%Z) else ((p * 2 ^ (- k))%Z, q).

(** The double nearest to the positive rational [p / q], as a
    significand below 2^53 and a binary exponent at least -1074; [None]
    is Infinity. *)
Definition nearest (p q : Z) : option (Z * Z) :=
  let k0 := (Z.log2 p - Z.log2 q - 52)%Z in
  let floor0 := (let (n, d) := scaled p q k0 in n / d)%Z in
  let k1 := if (floor0 <? 2 ^ 52)%Z then (k0 - 1)%Z
            else if (2 ^ 53 <=? floor0)%Z then (k0 + 1)%Z
            else k0 in
  let k := Z.max k1 (-1074) in
  let m := (let (n, d) := scaled p q k in round_half_even n d) in
  let (m, k) := if (m =? 2 ^ 53)%Z then ((2 ^ 52)%Z, (k + 1)%Z) else (m, k) in
  if (971 <? k)%Z then None else Some (m, k).

(** [s * 10^u] as a fraction. *)
Definition decimal_fraction (s u : Z) : Z * Z :=
  if (0 <=? u)%Z then ((s * 10 ^ u)%Z, 1%Z) else (s, (10 ^ (- u))%Z).

Definition same_double (a b : option (Z * Z)) : bool :=
  match a, b with
  | Some (m, k), Some (m', k') => (m =? m')%Z && (k =? k')%Z
  | None, None => true
  | _, _ => false
  end.

(** Whether [10^e <= dn / dd]. *)
Definition at_least_power (dn dd e : Z) : bool :=
  if (0 <=? e)%Z then (10 ^ e * dd <=? dn)%Z else (dd <=? dn * 10 ^ (- e))%Z.

(** The largest [e] with [10^e <= dn / dd], searched from an estimate. *)
Fixpoint floor_log10 (fuel : nat) (dn dd e : Z) : Z :=
  match fuel with
  | O => e
  | S fuel' =>
      if at_least_power dn dd e
      then if at_least_power dn dd (e + 1)
           then floor_log10 fuel' dn dd (e + 1)%Z
           else e
      else floor_log10 fuel' dn dd (e - 1)%Z
  end.

(** The decimal with the fewest digits, at least [count], that the
    parser reads back as the double [m * 2^k]; among two of that length
    the nearer one, the even one on a tie.  Returned as digits [s] and
    exponent [u], the decimal being [s * 10^u]. *)
Fixpoint shortest (fuel : nat) (m k e10 count : Z) : Z * Z :=
  let (dn, dd) := scaled m 1 (- k) in
  let u := (e10 - count + 1)%Z in
  let (un, ud) := decimal_fraction 1 u in
  let low := ((dn * ud) / (dd * un))%Z in
  let reads s := let (p, q) := decimal_fraction s u in
                 same_double (nearest p q) (Some (m, k)) in
  match fuel with
  | O => (low, u)
  | S fuel' =>
      match reads low, reads (low + 1)%Z with
      | true, false => (low, u)
      | false, true => ((low + 1)%Z, u)
      | true, true =>
          match (2 * dn * ud ?= (2 * low + 1) * un * dd)%Z with
          | Lt => (low, u)
          | Gt => ((low + 1)%Z, u)
          | Eq => if Z.even low then (low, u) else ((low + 1)%Z, u)
          end
      | false, false => shortest fuel' m k e10 (count + 1)%Z
      end
  end.

Fixpoint strip_zeros (fuel : nat) (s u : Z) : Z * Z :=
  match fuel with
  | O => (s, u)
  | S fuel' =>
      if (s mod 10 =? 0)%Z then strip_zeros fuel' (s / 10)%Z (u + 1)%Z else (s, u)
  end.

Fixpoint zeros (n : nat) : string :=
  match n with
  | O => EmptyString
  | S n' => String "0" (zeros n')
  end.

(** Number::toString for the decimal with digits [digits] and the
    decimal point after position [n]. *)
Definition print (digits : string) (n : Z) : string :=
  let k := Z.of_nat (String.length digits) in
  if ((k <=? n) && (n <=? 21))%Z then digits ++ zeros (Z.to_nat (n - k))
  else if ((0 <? n) && (n <=? 21))%Z then
    substring 0 (Z.to_nat n) digits ++ "."
    ++ substring (Z.to_nat n) (String.length digits - Z.to_nat n) digits
  else if ((-6 <? n) && (n <=? 0))%Z then
    "0." ++ zeros (Z.to_nat (- n)) ++ digits
  else
    let e := (n - 1)%Z in
    let mantissa :=
      match digits with
      | String d EmptyString => digits
      | String d rest => String d ("." ++ rest)
      | EmptyString => digits
      end in
    mantissa ++ "e" ++ (if (e <? 0)%Z then "-" else "+")
    ++ decimal (Z.to_N (Z.abs e)).

(** What [ToString] prints for the positive double [m * 2^k]. *)
Definition print_double (m k : Z) : string :=
  let (dn, dd) := scaled m 1 (- k) in
  let estimate := ((Z.log2 dn - Z.log2 dd) * 30103 / 100000)%Z in
  let e10 := floor_log10 8 dn dd estimate in
  let (s, u) := shortest 17 m k e10 1 in
  let (s, u) := strip_zeros 20 s u in
  let digits := decimal (Z.to_N s) in
  print digits (u + Z.of_nat (String.length digits))%Z.

End Double.

Fixpoint all_zero (s : string) : bool :=
  match s with
  | EmptyString => true
  | String c r => Ascii.eqb c "0" && all_zero r
  end.

(** The Number a token denotes, in the representation of [JNumber]:
    what [ToString] prints for the double nearest to the token's value.
    A token whose digits are all zero is 0, printed "0" whatever its
    sign.  A token far beyond the range of doubles is settled from its
    exponent alone, without computing its value. *)
Definition number_of_token (neg : bool) (int frac exp : string) : string :=
  if all_zero int && all_zero frac then "0"
  else
    let mantissa := Double.digits_value 0 (int ++ frac) in
    let places := Z.of_nat (String.length (int ++ frac)) in
    let e := (Double.exponent_value exp - Z.of_nat (String.length frac))%Z in
    let sign := if neg then "-" else "" in
    if (e + places <? -330)%Z then "0"
    else if (310 <? e)%Z then sign ++ "Infinity"
    else
      let (p, q) := Double.decimal_fraction mantissa e in
      match Double.nearest p q with
      | None => sign ++ "Infinity"
      | Some (m, k) =>
          if (m =? 0)%Z then "0" else sign ++ Double.print_double m k
      end.

Definition hex_value (c : ascii) : option nat :=
  let n := nat_of_ascii c in
  if (48 <=? n)%nat && (n <=? 57)%nat then Some (n - 48)%nat
  else if (65 <=? n)%nat && (n <=? 70)%nat then Some (n - 55)%nat
  else if (97 <=? n)%nat && (n <=? 102)%nat then Some (n - 87)%nat
  else None.

(** Strings are sequences of bytes here: a code unit written as a
    u-escape is stored in its UTF-8 form. *)
Definition utf8 (n : nat) : string :=
  if (n <? 128)%nat then String (ascii_of_nat n) EmptyString
  else if (n <? 2048)%nat then
    String (ascii_of_nat (192 + n / 64))
      (String (ascii_of_nat (128 + n mod 64)) EmptyString)
  else
    String (ascii_of_nat (224 + n / 4096))
      (String (ascii_of_nat (128 + (n / 64) mod 64))
         (String (ascii_of_nat (128 + n mod 64)) EmptyString)).

Definition quote_mark : ascii := "034"%char.
Definition backslash : ascii := "092"%char.

(** What a one-letter escape stands for. *)
Definition escape (e : ascii) : option string :=
  if (e =? quote_mark)%char then Some (String quote_mark EmptyString)
  else if (e =? backslash)%char then Some (String backslash EmptyString)
  else if (e =? "/")%char then Some "/"
  else if (e =? "b")%char then Some (String "008" EmptyString)
  else if (e =? "f")%char then Some (String "012" EmptyString)
  else if (e =? "n")%char then Some (String "010" EmptyString)
  else if (e =? "r")%char then Some (String "013" EmptyString)
  else if (e =? "t")%char then Some (String "009" EmptyString)
  else None.

Definition prepend (decoded : string) (rest : option (string * string))
  : option (string * string) :=
  match rest with
  | Some (str, r) => Some (decoded ++ str, r)
  | None => None
  end.

(** The characters of a string token after its opening quote, up to and
    including the closing quote: the decoded string and the rest of the
    input.  Control characters must be escaped. *)
Fixpoint parse_chars (s : string) : option (string * string) :=
  match s with
  | EmptyString => None
  | String c r =>
      if (c =? quote_mark)%char then Some (EmptyString, r)
      else if (c =? backslash)%char then
        match r with
        | EmptyString => None
        | String e r1 =>
            if (e =? "u")%char then
              match r1 with
              | String h1 (String h2 (String h3 (String h4 r2))) =>
                  match hex_value h1, hex_value h2, hex_value h3, hex_value h4 with
                  | Some a, Some b, Some c, Some d =>
                      prepend (utf8 (a * 4096 + b * 256 + c * 16 + d))
                        (parse_chars r2)
                  | _, _, _, _ => None
                  end
              | _ => None
              end
            else
              match escape e with
              | Some decoded => prepend decoded (parse_chars r1)
              | None => None
              end
        end
      else if (nat_of_ascii c <? 32)%nat then None
      else prepend (String c EmptyString) (parse_chars r)
  end.

(** Defining a property: an existing key keeps its place and takes the
    new value (so the last of two duplicate members wins), a new key goes
    last. *)
Fixpoint define (props : list (string * Value)) (key : string) (v : Value)
  : list (string * Value) :=
  match props with
  | [] => [(key, v)]
  | (k, x) :: rest =>
      if k =? key then (k, v) :: rest else (k, x) :: define rest key v
  end.

(** Recursive descent over the JSON grammar: a value, the elements of
    an array after its opening bracket, the members of an object after
    its opening brace.  Every call spends one unit of [fuel]; twice the
    length of the input, and one more, is enough for a value
    ([parse_value_fuel] below). *)
Fixpoint parse_value (fuel : nat) (s : string) {struct fuel}
  : option (Value * string) :=
  match fuel with
  | O => None
  | S fuel' =>
      match skip_ws s with
      | EmptyString => None
      | String c r =>
          if (c =? "n")%char then option_map (pair JNull) (expect "ull" r)
          else if (c =? "t")%char then option_map (pair (JBool true)) (expect "rue" r)
          else if (c =? "f")%char then option_map (pair (JBool false)) (expect "alse" r)
          else if (c =? quote_mark)%char then
            match parse_chars r with
            | Some (str, r') => Some (JString str, r')
            | None => None
            end
          else if (c =? "[")%char then
            match skip_ws r with
            | EmptyString => None
            | String c1 r1 =>
                if (c1 =? "]")%char then Some (JArray [], r1)
                else parse_elements fuel' (String c1 r1) []
            end
          else if (c =? "{")%char then
            match skip_ws r with
            | EmptyString => None
            | String c1 r1 =>
                if (c1 =? "}")%char then Some (JObject [], r1)
                else parse_members fuel' (String c1 r1) []
            end
          else
            match lex_number (String c r) with
            | Some (neg, int, frac, exp, r') =>
                Some (JNumber (number_of_token neg int frac exp), r')
            | None => None
            end
      end
  end
with parse_elements (fuel : nat) (s : string) (acc : list Value) {struct fuel}
  : option (Value * string) :=
  match fuel with
  | O => None
  | S fuel' =>
      match parse_value fuel' s with
      | Some (v, r) =>
          match skip_ws r with
          | EmptyString => None
          | String c r' =>
              if (c =? ",")%char then parse_elements fuel' r' (v :: acc)
              else if (c =? "]")%char then Some (JArray (rev (v :: acc)), r')
              else None
          end
      | None => None
      end
  end
with parse_members (fuel : nat) (s : string) (acc : list (string * Value))
       {struct fuel} : option (Value * string) :=
  match fuel with
  | O => None
  | S fuel' =>
      match skip_ws s with
      | EmptyString => None
      | String c r =>
          if (c =? quote_mark)%char then
            match parse_chars r with
            | Some (key, r1) =>
                match skip_ws r1 with
                | EmptyString => None
                | String c2 r2 =>
                    if (c2 =? ":")%char then
                      match parse_value fuel' r2 with
                      | Some (v, r3) =>
                          match skip_ws r3 with
                          | EmptyString => None
                          | String c4 r4 =>
                              if (c4 =? ",")%char
                              then parse_members fuel' r4 (define acc key v)
                              else if (c4 =? "}")%char
                              then Some (JObject (define acc key v), r4)
                              else None
                          end
                      | None => None
                      end
                    else None
                end
            | None => None
            end
          else None
      end
  end.

(** [JSON.parse(text)] for a string [text]: the value, or a SyntaxError
    (whose wording differs between engines; nothing depends on it).  The
    whole text must be one value, white space apart. *)
Definition JSON_parse (text : string) : Completion Value :=
  match parse_value (2 * String.length text + 1) text with
  | Some (v, rest) =>
      match skip_ws rest with
      | EmptyString => Normal v
      | _ => Throw (SyntaxError "Unexpected non-whitespace character after JSON")
      end
  | None => Throw (SyntaxError "Unexpected token in JSON")
  end.

(** [JSON.parse(x)] for any argument: the argument is first converted
    with ToString. *)
Definition parse (x : Value) : Completion Value :=
  text <- ToString x ;; JSON_parse text.

Definition hex_digit (n : nat) : ascii :=
  if (n <? 10)%nat then ascii_of_nat (48 + n) else ascii_of_nat (87 + n).

(** QuoteJSONString *)
Fixpoint quote_chars (s : string) : string :=
  match s with
  | EmptyString => EmptyString
  | String c r =>
      let n := nat_of_ascii c in
      (if (c =? quote_mark)%char then String backslash (String quote_mark EmptyString)
       else if (c =? backslash)%char then String backslash (String backslash EmptyString)
       else if (n =? 8)%nat then "\b"
       else if (n =? 9)%nat then "\t"
       else if (n =? 10)%nat then "\n"
       else if (n =? 12)%nat then "\f"
       else if (n =? 13)%nat then "\r"
       else if (n <? 32)%nat then
         "\u00" ++ String (hex_digit (n / 16)) (String (hex_digit (n mod 16)) EmptyString)
       else String c EmptyString) ++ quote_chars r
  end.

Definition quote (s : string) : string :=
  String quote_mark (quote_chars s ++ String quote_mark EmptyString).

(** [JSON.stringify(v)]: [None] is the [undefined] it returns for
    [undefined].  In an array an [undefined] item prints as null, in an
    object a property whose value is [undefined] is left out; a number
    that is not finite prints as null. *)
Fixpoint JSON_stringify (v : Value) : option string :=
  match v with
  | JUndefined => None
  | JNull => Some "null"
  | JBool true => Some "true"
  | JBool false => Some "false"
  | JNumber r =>
      Some (if (r =? "NaN") || (r =? "Infinity") || (r =? "-Infinity")
            then "null" else r)
  | JString s => Some (quote s)
  | JArray items =>
      Some ("[" ++ String.concat ","
              ((fix each (l : list Value) : list string :=
                  match l with
                  | [] => []
                  | x :: rest =>
                      match JSON_stringify x with
                      | Some t => t
                      | None => "null"
                      end :: each rest
                  end) items) ++ "]")
  | JObject props =>
      Some ("{" ++ String.concat ","
              ((fix each (l : list (string * Value)) : list string :=
                  match l with
                  | [] => []
                  | (k, x) :: rest =>
                      match JSON_stringify x with
                      | Some t => (quote k ++ ":" ++ t) :: each rest
                      | None => each rest
                      end
                  end) props) ++ "}")
  end.

End JSON.
Export JSON.

(* ================================================================== *)
(** * The component's state, its setters and what it renders *)
(* ================================================================== *)

Module React.

(** The four string literals [status] ever holds:
    ['idle'], ['loading'], ['success'], ['error']. *)
Inductive Status := st_idle | st_loading | st_success | st_error.

Definition status_eqb (a b : Status) : bool :=
  match a, b with
  | st_idle, st_idle | st_loading, st_loading
  | st_success, st_success | st_error, st_error => true
  | _, _ => false
  end.

(** The six [useState] cells of [App]. *)
Record State := mkState {
  image : Value;            (* useState(null): data URL for the preview *)
  base64ImageData : Value;  (* useState(null): base64 data for the API *)
  slideContent : Value;     (* useState(null): the parsed API response *)
  status : Status;          (* useState('idle') *)
  error : string;           (* useState('') *)
  showToast : bool          (* useState(false) *)
}.

Definition initial : State :=
  {| image := JNull; base64ImageData := JNull; slideContent := JNull;
     status := st_idle; error := ""; showToast := false |}.

(** The [File] taken from the file input. *)
Record File := mkFile { filename : string }.

(** What [fetch] is called with. *)
Record Request := mkRequest {
  url : string;
  method : string;
  headers : list (string * string);
  body : option string
}.

(** What a handler does, in program order: calls of the state setters,
    of [console.error], and of the three platform services. *)
Inductive Effect :=
| setImage (v : Value)
| setBase64ImageData (v : Value)
| setSlideContent (v : Value)
| setStatus (st : Status)
| setError (msg : string)
| setShowToast (b : bool)
| console_error (label : string) (thrown : option JsError)
| readAsDataURL (file : File)
| fetch (request : Request)
| writeText (text : string).

Definition apply (s : State) (e : Effect) : State :=
  match e with
  | setImage v =>
      {| image := v; base64ImageData := base64ImageData s;
         slideContent := slideContent s; status := status s;
         error := error s; showToast := showToast s |}
  | setBase64ImageData v =>
      {| image := image s; base64ImageData := v;
         slideContent := slideContent s; status := status s;
         error := error s; showToast := showToast s |}
  | setSlideContent v =>
      {| image := image s; base64ImageData := base64ImageData s;
         slideContent := v; status := status s;
         error := error s; showToast := showToast s |}
  | setStatus st =>
      {| image := image s; base64ImageData := base64ImageData s;
         slideContent := slideContent s; status := st;
         error := error s; showToast := showToast s |}
  | setError msg =>
      {| image := image s; base64ImageData := base64ImageData s;
         slideContent := slideContent s; status := status s;
         error := msg; showToast := showToast s |}
  | setShowToast b =>
      {| image := image s; base64ImageData := base64ImageData s;
         slideContent := slideContent s; status := status s;
         error := error s; showToast := b |}
  | console_error _ _ | readAsDataURL _ | fetch _ | writeText _ => s
  end.

(** The state after a trace. *)
Definition run (s : State) (trace : list Effect) : State :=
  fold_left apply trace s.

(** How the awaited platform calls settle: inputs of the handlers. *)

(** [reader.readAsDataURL(file)]: [onload] fires with the data URL, or
    the read fails and [onload] never fires. *)
Inductive ReaderOutcome :=
| Loaded (result : string)
| NotLoaded.

(** A [Response]: [response.status] (named [http_status] here, [status]
    being the state cell) and how [response.json()] settles. *)
Record Response := mkResponse {
  http_status : N;
  json : Completion Value
}.

(** [response.ok]: the status is in the range 200-299. *)
Definition ok (response : Response) : bool :=
  ((200 <=? http_status response) && (http_status response <=? 299))%N.

Inductive FetchOutcome :=
| FetchRejected (e : JsError)
| FetchResolved (response : Response).

Inductive ClipboardOutcome :=
| WriteResolved
| WriteRejected (err : JsError).

(** The helper components placed in the result panel. *)
Inductive View :=
| Spinner
| ErrorMessage (message : string)
| SuccessContent (content : Value)
| Placeholder.

(** A rendered child of the panel: one of the helper components or a
    text node. *)
Inductive Node :=
| Component (v : View)
| Text (s : string).

(** A falsy value in child position, what [a && <X />] leaves when [a]
    is falsy: [false], [null], [undefined] and [""] render nothing, the
    numbers [0] and [NaN] render as text. *)
Definition falsy_child (v : Value) : list Node :=
  match v with
  | JNumber r => [Text r]
  | _ => []
  end.

Definition is_view (n : Node) : bool :=
  match n with
  | Component _ => true
  | Text _ => false
  end.

Definition newline : string := String "010" EmptyString.

End React.
Export React.

(* ================================================================== *)
(** * src/src/App.jsx *)
(* ================================================================== *)

Module AppJsx.

(** Lines 35-50.  [event.target.files[0]] is the selected [File] or
    [undefined]; [outcome] is how the read started on line 49 settles. *)
Definition handleImageUpload (file : option File) (outcome : ReaderOutcome)
  : list Effect :=
  match file with
  | None => []                                  (* if (!file) return; *)
  | Some file =>
      (* Reset UI for new image *)
      [setStatus st_idle; setSlideContent JNull; setError ""]
      ++ [readAsDataURL file]
      ++ match outcome with
         | Loaded result =>                     (* reader.onload *)
             [setImage (JString result);
              setBase64ImageData (item (split "," result) 1)]
         | NotLoaded => []
         end
  end.

(** Line 63. *)
Definition prompt : string :=
  "You are an expert presentation creator. Analyze the following image and generate content for a single PowerPoint slide. Provide a concise, impactful title and 3-5 key bullet points that summarize the main theme or message of the image. The tone should be professional and informative. Respond with a JSON object.".

(** Lines 66-67.  [apiKey] is [import.meta.env.VITE_GEMINI_API_KEY], a
    string, or [undefined] when the variable is not set. *)
Definition apiUrl (apiKey : option string) : string :=
  "https://generativelanguage.googleapis.com/v1beta/models/gemini-1.5-flash:generateContent?key="
  ++ match apiKey with Some key => key | None => "undefined" end.

(** Lines 81-105: the object handed to [JSON.stringify].  (The
    [payload] of line 65 is an empty object that nothing reads.) *)
Definition requestBody (base64ImageData : Value) : Value :=
  JObject
    [("contents",
      JArray
        [JObject
           [("role", JString "user");
            ("parts",
             JArray
               [JObject [("text", JString prompt)];
                JObject
                  [("inlineData",
                    JObject [("mimeType", JString "image/jpeg");
                             ("data", base64ImageData)])]])]]);
     ("generationConfig",
      JObject
        [("responseMimeType", JString "application/json");
         ("responseSchema",
          JObject
            [("type", JString "OBJECT");
             ("properties",
              JObject
                [("title", JObject [("type", JString "STRING")]);
                 ("bulletPoints",
                  JObject [("type", JString "ARRAY");
                           ("items", JObject [("type", JString "STRING")])])]);
             ("required", JArray [JString "title"; JString "bulletPoints"])])])].

(** Lines 78-106: the call of [fetch]. *)
Definition request (apiKey : option string) (base64ImageData : Value) : Request :=
  {| url := apiUrl apiKey;
     method := "POST";
     headers := [("Content-Type", "application/json")];
     body := JSON_stringify (requestBody base64ImageData) |}.

(** Line 114: [result.candidates?.[0]?.content?.parts?.[0]]. *)
Definition content_part (result : Value) : Completion Value :=
  candidates <- get result "candidates" ;;
  optional candidates (fun candidates =>
    candidate <- get_index candidates 0 ;;
    optional candidate (fun candidate =>
      content <- get candidate "content" ;;
      optional content (fun content =>
        parts <- get content "parts" ;;
        optional parts (fun parts => get_index parts 0)))).

(** Line 115: [result.candidates[0].content.parts[0].text]. *)
Definition jsonText (result : Value) : Completion Value :=
  candidates <- get result "candidates" ;;
  candidate <- get_index candidates 0 ;;
  content <- get candidate "content" ;;
  parts <- get content "parts" ;;
  part <- get_index parts 0 ;;
  get part "text".

(** Lines 78-121, the body of [try]: the value of [parsedJson] when the
    end of the block is reached, or what is thrown on the way. *)
Definition try_block (outcome : FetchOutcome) : Completion Value :=
  match outcome with
  | FetchRejected e => Throw e                        (* await fetch(...) *)
  | FetchResolved response =>
      if negb (ok response) then
        Throw (Error ("API request failed with status "
                      ++ decimal (http_status response)))
      else
        result <- json response ;;                    (* await response.json() *)
        part <- content_part result ;;
        if ToBoolean part then
          jsonText <- jsonText result ;;
          parsedJson <- JSON.parse jsonText ;;
          Normal parsedJson
        else
          Throw (Error "Unexpected API response structure.")
  end.

(** Lines 55-128.  [s] is the state of the render the function closes
    over; [outcome] is how the [fetch] settles. *)
Definition generateSlideContent (apiKey : option string) (s : State)
    (outcome : FetchOutcome) : list Effect :=
  if negb (ToBoolean (base64ImageData s)) then
    [console_error "No image data available." None]
  else
    [setStatus st_loading; fetch (request apiKey (base64ImageData s))]
    ++ match try_block outcome with
       | Normal parsedJson =>
           [setSlideContent parsedJson; setStatus st_success]
       | Throw error =>
           [console_error "Error generating content:" (Some error);
            setError ("An error occurred: " ++ message error);
            setStatus st_error]
       end.

(** Lines 136-137.  The template is evaluated left to right: [title] is
    converted before [bulletPoints.map] is called. *)
Definition textToCopy (slideContent : Value) : Completion string :=
  title <- get slideContent "title" ;;
  bulletPoints <- get slideContent "bulletPoints" ;;
  title <- ToString title ;;
  lines <- call_map "bulletPoints" bulletPoints
             (fun p => p <- ToString p ;; Normal ("- " ++ p)) ;;
  Normal ("Title:" ++ newline ++ title ++ newline ++ newline
          ++ "Bullet Points:" ++ newline ++ join newline lines).

(** Lines 133-147.  A throw on lines 136-137 is outside the [try]: the
    call is then rejected, having done nothing.  [outcome] is how
    [navigator.clipboard.writeText] settles. *)
Definition copyContentToClipboard (s : State) (outcome : ClipboardOutcome)
  : Completion (list Effect) :=
  if negb (ToBoolean (slideContent s)) then Normal []   (* if (!slideContent) return; *)
  else
    textToCopy <- textToCopy (slideContent s) ;;
    Normal (writeText textToCopy
            :: match outcome with
               | WriteResolved => [setShowToast true]
               | WriteRejected err =>
                   [console_error "Failed to copy text: " (Some err);
                    setError "Could not copy text to clipboard.";
                    setStatus st_error]
               end).

(** Lines 17-21: the effect on [base64ImageData]; whether it calls
    [generateSlideContent]. *)
Definition imageEffect (s : State) : bool := ToBoolean (base64ImageData s).

(** Lines 24-29: the effect on [showToast].  The delay of the timer it
    sets, whose callback is [toastTimeout]; when it sets one it returns
    the cleanup that clears it. *)
Definition toastEffect (s : State) : option N :=
  if showToast s then Some 2000%N else None.

Definition toastTimeout : list Effect := [setShowToast false].

(** Lines 190-193: the children of the result panel. *)
Definition panel (s : State) : list Node :=
  (if status_eqb (status s) st_loading then [Component Spinner] else [])
  ++ (if status_eqb (status s) st_error
      then [Component (ErrorMessage (error s))] else [])
  ++ (if status_eqb (status s) st_success then
        if ToBoolean (slideContent s)
        then [Component (SuccessContent (slideContent s))]
        else falsy_child (slideContent s)
      else [])
  ++ (if status_eqb (status s) st_idle then [Component Placeholder] else []).

(** Line 197: [disabled={status !== 'success'}]. *)
Definition copyDisabled (s : State) : bool :=
  negb (status_eqb (status s) st_success).

(** Line 207: the [show] prop of [Toast]. *)
Definition toastShown (s : State) : bool := showToast s.

End AppJsx.

(* ================================================================== *)
(** * src/unnamed/part_000 *)
(* ================================================================== *)

(** The second copy of the component, translated from its own text. *)
Module Part000.

(** Lines 27-41.  [event.target.files[0]] is the selected [File] or
    [undefined]; [outcome] is how the read started on line 40 settles. *)
Definition handleImageUpload (file : option File) (outcome : ReaderOutcome)
  : list Effect :=
  match file with
  | None => []                                  (* if (!file) return; *)
  | Some file =>
      (* Reset UI for new image *)
      [setStatus st_idle; setSlideContent JNull; setError ""]
      ++ [readAsDataURL file]
      ++ match outcome with
         | Loaded result =>                     (* reader.onload *)
             [setImage (JString result);
              setBase64ImageData (item (split "," result) 1)]
         | NotLoaded => []
         end
  end.

(** Line 52. *)
Definition prompt : string :=
  "You are an expert presentation creator. Analyze the following image and generate content for a single PowerPoint slide. Provide a concise, impactful title and 3-5 key bullet points that summarize the main theme or message of the image. The tone should be professional and informative. Respond with a JSON object.".

(** Lines 54-55.  [apiKey] is [import.meta.env.VITE_GEMINI_API_KEY], a
    string, or [undefined] when the variable is not set. *)
Definition apiUrl (apiKey : option string) : string :=
  "https://generativelanguage.googleapis.com/v1beta/models/gemini-1.5-flash:generateContent?key="
  ++ match apiKey with Some key => key | None => "undefined" end.

(** Lines 61-85: the object handed to [JSON.stringify]. *)
Definition requestBody (base64ImageData : Value) : Value :=
  JObject
    [("contents",
      JArray
        [JObject
           [("role", JString "user");
            ("parts",
             JArray
               [JObject [("text", JString prompt)];
                JObject
                  [("inlineData",
                    JObject [("mimeType", JString "image/jpeg");
                             ("data", base64ImageData)])]])]]);
     ("generationConfig",
      JObject
        [("responseMimeType", JString "application/json");
         ("responseSchema",
          JObject
            [("type", JString "OBJECT");
             ("properties",
              JObject
                [("title", JObject [("type", JString "STRING")]);
                 ("bulletPoints",
                  JObject [("type", JString "ARRAY");
                           ("items", JObject [("type", JString "STRING")])])]);
             ("required", JArray [JString "title"; JString "bulletPoints"])])])].

(** Lines 58-86: the call of [fetch]. *)
Definition request (apiKey : option string) (base64ImageData : Value) : Request :=
  {| url := apiUrl apiKey;
     method := "POST";
     headers := [("Content-Type", "application/json")];
     body := JSON_stringify (requestBody base64ImageData) |}.

(** Line 94: [result.candidates?.[0]?.content?.parts?.[0]]. *)
Definition content_part (result : Value) : Completion Value :=
  candidates <- get result "candidates" ;;
  optional candidates (fun candidates =>
    candidate <- get_index candidates 0 ;;
    optional candidate (fun candidate =>
      content <- get candidate "content" ;;
      optional content (fun content =>
        parts <- get content "parts" ;;
        optional parts (fun parts => get_index parts 0)))).

(** Line 95: [result.candidates[0].content.parts[0].text]. *)
Definition jsonText (result : Value) : Completion Value :=
  candidates <- get result "candidates" ;;
  candidate <- get_index candidates 0 ;;
  content <- get candidate "content" ;;
  parts <- get content "parts" ;;
  part <- get_index parts 0 ;;
  get part "text".

(** Lines 58-101, the body of [try]: the value of [parsedJson] when the
    end of the block is reached, or what is thrown on the way. *)
Definition try_block (outcome : FetchOutcome) : Completion Value :=
  match outcome with
  | FetchRejected e => Throw e                        (* await fetch(...) *)
  | FetchResolved response =>
      if negb (ok response) then
        Throw (Error ("API request failed with status "
                      ++ decimal (http_status response)))
      else
        result <- json response ;;                    (* await response.json() *)
        part <- content_part result ;;
        if ToBoolean part then
          jsonText <- jsonText result ;;
          parsedJson <- JSON.parse jsonText ;;
          Normal parsedJson
        else
          Throw (Error "Unexpected API response structure.")
  end.

(** Lines 43-108.  [s] is the state of the render the function closes
    over; [outcome] is how the [fetch] settles. *)
Definition generateSlideContent (apiKey : option string) (s : State)
    (outcome : FetchOutcome) : list Effect :=
  if negb (ToBoolean (base64ImageData s)) then
    [console_error "No image data available." None]
  else
    [setStatus st_loading; fetch (request apiKey (base64ImageData s))]
    ++ match try_block outcome with
       | Normal parsedJson =>
           [setSlideContent parsedJson; setStatus st_success]
       | Throw error =>
           [console_error "Error generating content:" (Some error);
            setError ("An error occurred: " ++ message error);
            setStatus st_error]
       end.

(** Lines 114-115.  The template is evaluated left to right: [title] is
    converted before [bulletPoints.map] is called. *)
Definition textToCopy (slideContent : Value) : Completion string :=
  title <- get slideContent "title" ;;
  bulletPoints <- get slideContent "bulletPoints" ;;
  title <- ToString title ;;
  lines <- call_map "bulletPoints" bulletPoints
             (fun p => p <- ToString p ;; Normal ("- " ++ p)) ;;
  Normal ("Title:" ++ newline ++ title ++ newline ++ newline
          ++ "Bullet Points:" ++ newline ++ join newline lines).

(** Lines 110-125.  A throw on lines 114-115 is outside the [try]: the
    call is then rejected, having done nothing.  [outcome] is how
    [navigator.clipboard.writeText] settles. *)
Definition copyContentToClipboard (s : State) (outcome : ClipboardOutcome)
  : Completion (list Effect) :=
  if negb (ToBoolean (slideContent s)) then Normal []   (* if (!slideContent) return; *)
  else
    textToCopy <- textToCopy (slideContent s) ;;
    Normal (writeText textToCopy
            :: match outcome with
               | WriteResolved => [setShowToast true]
               | WriteRejected err =>
                   [console_error "Failed to copy text: " (Some err);
                    setError "Could not copy text to clipboard.";
                    setStatus st_error]
               end).

(** Lines 14-18: the effect on [base64ImageData]; whether it calls
    [generateSlideContent]. *)
Definition imageEffect (s : State) : bool := ToBoolean (base64ImageData s).

(** Lines 20-25: the effect on [showToast].  The delay of the timer it
    sets, whose callback is [toastTimeout]; when it sets one it returns
    the cleanup that clears it. *)
Definition toastEffect (s : State) : option N :=
  if showToast s then Some 2000%N else None.

Definition toastTimeout : list Effect := [setShowToast false].

(** Lines 173-176: the children of the result panel. *)
Definition panel (s : State) : list Node :=
  (if status_eqb (status s) st_loading then [Component Spinner] else [])
  ++ (if status_eqb (status s) st_error
      then [Component (ErrorMessage (error s))] else [])
  ++ (if status_eqb (status s) st_success then
        if ToBoolean (slideContent s)
        then [Component (SuccessContent (slideContent s))]
        else falsy_child (slideContent s)
      else [])
  ++ (if status_eqb (status s) st_idle then [Component Placeholder] else []).

(** Line 180: [disabled={status !== 'success'}]. *)
Definition copyDisabled (s : State) : bool :=
  negb (status_eqb (status s) st_success).

(** Line 189: the [show] prop of [Toast]. *)
Definition toastShown (s : State) : bool := showToast s.

End Part000.

(* ================================================================== *)
(** * Commits, effects and the toast timer *)
(* ================================================================== *)

(** What React adds around the handlers.  A batch of setter calls is
    committed as one new state.  An effect declared with the dependency
    list [[showToast]] runs again only after a commit in which
    [showToast] differs from its value at the previous commit: first
    the cleanup the previous run returned, then the effect.  Setting a
    cell to the value it already holds therefore re-runs nothing.
    Time is counted in milliseconds; a timer fires at its due time, and
    the clipboard call of a click settles within the same millisecond.
    The machine is that of the mounted component: it delivers a click
    whenever the button is enabled, and does not itself look at whether
    the panel could be rendered ([Components.rendered]). *)
Module Runtime.

Record Runtime := mkRuntime {
  state : State;
  timer : option N          (* due time of the pending toast timer *)
}.

Section Machine.

Variable copyContentToClipboard :
  State -> ClipboardOutcome -> Completion (list Effect).
Variable copyDisabled : State -> bool.
Variable toastEffect : State -> option N.
Variable toastTimeout : list Effect.

(** Committing [trace] at time [now]. *)
Definition commit (now : N) (trace : list Effect) (rt : Runtime) : Runtime :=
  let s' := run (state rt) trace in
  {| state := s';
     timer :=
       if Bool.eqb (showToast (state rt)) (showToast s')
       then timer rt                               (* effect not re-run *)
       else                                        (* cleanup, then effect *)
         match toastEffect s' with
         | Some delay => Some (now + delay)%N
         | None => None
         end |}.

(** Letting time pass up to [now]: a timer that is due fires. *)
Definition advance (now : N) (rt : Runtime) : Runtime :=
  match timer rt with
  | Some due =>
      if (due <=? now)%N
      then commit due toastTimeout {| state := state rt; timer := None |}
      else rt
  | None => rt
  end.

(** A click on the Copy button at time [now], the clipboard call
    settling as [outcome].  A disabled button ignores the click. *)
Definition click (now : N) (outcome : ClipboardOutcome) (rt : Runtime)
  : Runtime :=
  let rt := advance now rt in
  if copyDisabled (state rt) then rt
  else match copyContentToClipboard (state rt) outcome with
       | Normal trace => commit now trace rt
       | Throw _ => rt
       end.

(** Whether the toast is shown at time [now]. *)
Definition toastAt (now : N) (rt : Runtime) : bool :=
  showToast (state (advance now rt)).

End Machine.

End Runtime.

(** The running component of each variant. *)
Definition AppJsx_click : N -> ClipboardOutcome -> Runtime.Runtime -> Runtime.Runtime :=
  Runtime.click AppJsx.copyContentToClipboard AppJsx.copyDisabled
    AppJsx.toastEffect AppJsx.toastTimeout.

Definition AppJsx_toastAt : N -> Runtime.Runtime -> bool :=
  Runtime.toastAt AppJsx.toastEffect AppJsx.toastTimeout.

Definition Part000_click : N -> ClipboardOutcome -> Runtime.Runtime -> Runtime.Runtime :=
  Runtime.click Part000.copyContentToClipboard Part000.copyDisabled
    Part000.toastEffect Part000.toastTimeout.

Definition Part000_toastAt : N -> Runtime.Runtime -> bool :=
  Runtime.toastAt Part000.toastEffect Part000.toastTimeout.

(* ================================================================== *)
(** * Vocabulary of the statements *)
(* ================================================================== *)

(** [needle] occurs in [text]. *)
Definition mentions (needle text : string) : Prop :=
  exists before after, text = before ++ needle ++ after.

Definition is_string (v : Value) : bool :=
  match v with JString _ => true | _ => false end.

(** The shape the request asks the model for in [responseSchema]
    (App.jsx lines 93-103): an object whose [title] is a string and
    whose [bulletPoints] is an array of strings. *)
Definition has_required_fields (v : Value) : bool :=
  match v with
  | JObject props =>
      match lookup props "title", lookup props "bulletPoints" with
      | Some (JString _), Some (JArray points) => forallb is_string points
      | _, _ => false
      end
  | _ => false
  end.

(** A response envelope whose candidate/content/parts path leads to a
    part with the given [text]. *)
Definition envelope (text : Value) : Value :=
  JObject
    [("candidates",
      JArray
        [JObject
           [("content",
             JObject [("parts", JArray [JObject [("text", text)]])])]])].

(** The state once an image has been read. *)
Definition uploaded : State :=
  {| image := JString "data:image/png;base64,AAAA";
     base64ImageData := JString "AAAA";
     slideContent := JNull;
     status := st_idle;
     error := "";
     showToast := false |}.

(** The slide of the first scenario. *)
Definition q1_results : Value :=
  JObject
    [("title", JString "Q1 Results");
     ("bulletPoints",
      JArray [JString "Revenue up 12%"; JString "New markets opened"])].

(** A state showing generated content. *)
Definition showing (content : Value) : State :=
  {| image := JString "data:image/png;base64,AAAA";
     base64ImageData := JString "AAAA";
     slideContent := content;
     status := st_success;
     error := "";
     showToast := false |}.

(** The JSON text of that slide, as [JSON.stringify] writes it. *)
Definition q1_results_text : string :=
  Eval cbv in
    match JSON_stringify q1_results with Some text => text | None => "" end.

(** Completed calls: a server error, a body that is the literal null,
    and bodies whose part carries a given text. *)
Definition response_500 : Response :=
  {| http_status := 500;
     json := Normal (JObject [("error", JObject [("code", JNumber "500")])]) |}.

Definition response_null : Response :=
  {| http_status := 200; json := Normal JNull |}.

Definition response_with (text : string) : Response :=
  {| http_status := 200; json := Normal (envelope (JString text)) |}.

(** A running component that shows generated content, no toast. *)
Definition live (content : Value) : Runtime.Runtime :=
  {| Runtime.state := showing content; Runtime.timer := None |}.

(** The state with the toast cell set. *)
Definition toasting (s : State) (b : bool) : State :=
  apply s (setShowToast b).

(* ================================================================== *)
(** * The rest of the component *)
(* ================================================================== *)

(** The helper component that shows a slide, and the preview. *)
Module Components.

(** What [SuccessContent] places in its heading and in its list: the
    child values as they are, each list item with its [key]. *)
Record SuccessView := mkSuccessView {
  heading : Value;
  bullets : list (nat * Value)
}.

(** The items of an array with their indices, as the callback of [map]
    receives them. *)
Fixpoint indexed (from : nat) (l : list Value) : list (nat * Value) :=
  match l with
  | [] => []
  | x :: rest => (from, x) :: indexed (S from) rest
  end.

(** App.jsx lines 228-237 (part_000 lines 211-220).  The children are
    evaluated in order: [content.title], then
    [content.bulletPoints.map(...)], which throws unless
    [bulletPoints] is an array. *)
Definition SuccessContent_render (content : Value) : Completion SuccessView :=
  title <- get content "title" ;;
  bulletPoints <- get content "bulletPoints" ;;
  match bulletPoints with
  | JArray points => Normal {| heading := title; bullets := indexed 0 points |}
  | JUndefined =>
      Throw (TypeError "Cannot read properties of undefined (reading 'map')")
  | JNull =>
      Throw (TypeError "Cannot read properties of null (reading 'map')")
  | _ => Throw (TypeError "content.bulletPoints.map is not a function")
  end.

(** Whether React accepts a value as a child: strings and numbers
    become text, [null], [undefined] and booleans nothing, an array its
    items; a plain object is refused. *)
Fixpoint valid_child (v : Value) : bool :=
  match v with
  | JObject _ => false
  | JArray items =>
      (fix all (l : list Value) : bool :=
         match l with
         | [] => true
         | x :: rest => valid_child x && all rest
         end) items
  | _ => true
  end.

(** Mounting [SuccessContent]: the function is called, then React turns
    the children it returned into nodes and throws on a plain object
    (the message is abridged). *)
Definition SuccessContent_mount (content : Value) : Completion SuccessView :=
  view <- SuccessContent_render content ;;
  if valid_child (heading view)
     && forallb (fun item => valid_child (snd item)) (bullets view)
  then Normal view
  else Throw (Error "Objects are not valid as a React child").

(** App.jsx lines 162-169 (part_000 lines 145-152): the image when
    there is one, a placeholder otherwise. *)
Inductive Preview :=
| PreviewImage (src : Value)
| PreviewPlaceholder.

Definition preview (s : State) : Preview :=
  if ToBoolean (image s) then PreviewImage (image s) else PreviewPlaceholder.

(** What the panel shows.  [Spinner], [ErrorMessage] and [Placeholder]
    are fixed markup around a string and always mount; [SuccessContent]
    may throw.  No error boundary surrounds the component: a throw while
    rendering unmounts the whole tree, and nothing is shown. *)
Fixpoint mount (nodes : list Node) : Completion (list Node) :=
  match nodes with
  | [] => Normal []
  | node :: rest =>
      _ <- match node with
           | Component (SuccessContent content) =>
               view <- SuccessContent_mount content ;; Normal tt
           | _ => Normal tt
           end ;;
      rest' <- mount rest ;;
      Normal (node :: rest')
  end.

Definition rendered (s : State) : Completion (list Node) :=
  mount (AppJsx.panel s).

End Components.

(** Time passing for the running component of App.jsx. *)
Definition AppJsx_advance : N -> Runtime.Runtime -> Runtime.Runtime :=
  Runtime.advance AppJsx.toastEffect AppJsx.toastTimeout.

(** The handlers put together as the component runs them. *)
Module Session.

(** [Object.is] on the values the cell [base64ImageData] takes: [null],
    [undefined] and strings ([payload_cell_values] below).  Arrays and
    objects, compared by identity, never reach it. *)
Definition same_payload (a b : Value) : bool :=
  match a, b with
  | JUndefined, JUndefined | JNull, JNull => true
  | JString x, JString y => x =? y
  | _, _ => false
  end.

(** App.jsx lines 17-21 (part_000 lines 14-18): the effect with the
    dependency list [[base64ImageData]] runs after a commit that changed
    the cell, and calls [generateSlideContent] when the cell is truthy. *)
Definition requests (before after : State) : bool :=
  negb (same_payload (base64ImageData before) (base64ImageData after))
  && AppJsx.imageEffect after.

(** A selection in the file input, through to the settling of the
    request it leads to, if any: [handleImageUpload], then the effect. *)
Definition select_trace (apiKey : option string) (file : option File)
    (reader : ReaderOutcome) (outcome : FetchOutcome) (s : State)
  : list Effect :=
  let intake := AppJsx.handleImageUpload file reader in
  let s1 := run s intake in
  (intake
   ++ if requests s s1
      then AppJsx.generateSlideContent apiKey s1 outcome
      else [])%list.

Definition select (apiKey : option string) (file : option File)
    (reader : ReaderOutcome) (outcome : FetchOutcome) (s : State) : State :=
  run s (select_trace apiKey file reader outcome s).



(** Clicks on the Copy button, each with its time and the way its
    clipboard call settles, in the order they happen. *)
Fixpoint replay (events : list (N * ClipboardOutcome)) (rt : Runtime.Runtime)
  : Runtime.Runtime :=
  match events with
  | [] => rt
  | (now, outcome) :: rest => replay rest (AppJsx_click now outcome rt)
  end.

(** The toast cell and the timer go together: a shown toast has a
    pending timer, due 2000 ms after a successful export, one of the
    clicks [done] since [start], that found the toast hidden; a hidden
    toast has no timer. *)
Definition pending (start : Runtime.Runtime)
    (done : list (N * ClipboardOutcome)) (rt : Runtime.Runtime) : Prop :=
  match Runtime.timer rt with
  | Some due =>
      showToast (Runtime.state rt) = true
      /\ exists before now after,
           done = (before ++ (now, WriteResolved) :: after)%list
           /\ AppJsx_toastAt now (replay before start) = false
           /\ due = (now + 2000)%N
  | None => showToast (Runtime.state rt) = false
  end.

(** What happens to the running component: a selection in the file
    input, with the way the read and the request it may lead to settle,
    or a click on Copy.  A selection runs to the settling of its
    request before the next event. *)
Inductive Event :=
| Selection (file : option File) (reader : ReaderOutcome) (outcome : FetchOutcome)
| Copy (now : N) (outcome : ClipboardOutcome).

Definition step (apiKey : option string) (e : Event) (rt : Runtime.Runtime)
  : Runtime.Runtime :=
  match e with
  | Selection file reader outcome =>
      {| Runtime.state := select apiKey file reader outcome (Runtime.state rt);
         Runtime.timer := Runtime.timer rt |}
  | Copy now outcome => AppJsx_click now outcome rt
  end.

Fixpoint steps (apiKey : option string) (events : list Event)
    (rt : Runtime.Runtime) : Runtime.Runtime :=
  match events with
  | [] => rt
  | e :: rest => steps apiKey rest (step apiKey e rt)
  end.

(** The component as mounted. *)
Definition mounted : Runtime.Runtime :=
  {| Runtime.state := initial; Runtime.timer := None |}.

End Session.

(** ** Vocabulary for texts *)

(** [c] does not occur in [s]. *)
Fixpoint free_of (c : ascii) (s : string) : bool :=
  match s with
  | EmptyString => true
  | String x rest => negb (Ascii.eqb x c) && free_of c rest
  end.

(** What [JSON.stringify] writes for [v] inside an array. *)
Definition text_of (v : Value) : string :=
  match JSON_stringify v with Some text => text | None => "null" end.

(** What it writes for a property. *)
Definition member_text (member : string * Value) : string :=
  quote (fst member) ++ ":" ++ text_of (snd member).

Fixpoint distinct (keys : list string) : bool :=
  match keys with
  | [] => true
  | key :: rest => negb (existsb (String.eqb key) rest) && distinct rest
  end.

(** Values made of [null], booleans, strings, arrays and objects with
    distinct keys: no [undefined] and no number anywhere. *)
Fixpoint textual (v : Value) : bool :=
  match v with
  | JUndefined | JNumber _ => false
  | JNull | JBool _ | JString _ => true
  | JArray items =>
      (fix all (l : list Value) : bool :=
         match l with
         | [] => true
         | x :: rest => textual x && all rest
         end) items
  | JObject props =>
      distinct (map fst props)
      && (fix all (l : list (string * Value)) : bool :=
            match l with
            | [] => true
            | (_, x) :: rest => textual x && all rest
            end) props
  end.

(** Induction on values that reaches the items of an array and the
    values of the properties of an object. *)
Section ValueInduction.

Variable P : Value -> Prop.
Hypothesis P_undefined : P JUndefined.
Hypothesis P_null : P JNull.
Hypothesis P_bool : forall b, P (JBool b).
Hypothesis P_number : forall repr, P (JNumber repr).
Hypothesis P_string : forall s, P (JString s).
Hypothesis P_array : forall items, Forall P items -> P (JArray items).
Hypothesis P_object :
  forall props, Forall (fun member => P (snd member)) props -> P (JObject props).

Fixpoint Value_induction (v : Value) : P v :=
  match v with
  | JUndefined => P_undefined
  | JNull => P_null
  | JBool b => P_bool b
  | JNumber repr => P_number repr
  | JString s => P_string s
  | JArray items =>
      P_array items
        ((fix all (l : list Value) : Forall P l :=
            match l with
            | [] => Forall_nil P
            | x :: rest => Forall_cons x (Value_induction x) (all rest)
            end) items)
  | JObject props =>
      P_object props
        ((fix all (l : list (string * Value))
            : Forall (fun member => P (snd member)) l :=
            match l with
            | [] => Forall_nil _
            | member :: rest =>
                Forall_cons member (Value_induction (snd member)) (all rest)
            end) props)
  end.

End ValueInduction.

(* ================================================================== *)
(** * The parser's fuel *)
(* ================================================================== *)

Lemma skip_ws_length (s : string) :
  String.length (skip_ws s) <= String.length s.
Proof.
  induction s as [|c s IH]; simpl; [lia|].
  destruct (is_ws c); simpl; lia.
Qed.

Lemma expect_length (word s r : string) :
  expect word s = Some r -> String.length r <= String.length s.
Proof.
  revert s. induction word as [|w word IH]; intros s H; simpl in H.
  - injection H as <-. lia.
  - destruct s as [|c s]; [discriminate|].
    destruct (Ascii.eqb w c); [|discriminate].
    apply IH in H. simpl. lia.
Qed.

Lemma span_digits_length (s ds r : string) :
  span_digits s = (ds, r) -> String.length r <= String.length s.
Proof.
  revert ds r. induction s as [|c s IH]; intros ds r H; simpl in H.
  - injection H as <- <-. simpl. lia.
  - destruct (is_digit c).
    + destruct (span_digits s) as [ds' r'] eqn:E.
      injection H as <- <-. specialize (IH _ _ eq_refl). simpl. lia.
    + injection H as <- <-. lia.
Qed.

Lemma prepend_some (decoded : string) (rest : option (string * string))
    (str r : string) :
  prepend decoded rest = Some (str, r) ->
  exists str', rest = Some (str', r).
Proof.
  destruct rest as [[str' r']|]; simpl; [|discriminate].
  intros H. injection H as <- <-. eauto.
Qed.

Lemma parse_chars_length (s str r : string) :
  parse_chars s = Some (str, r) -> String.length r < String.length s.
Proof.
  remember (String.length s) as n eqn:Hn.
  assert (Hle : String.length s <= n) by lia. clear Hn.
  revert s str r Hle.
  induction n as [|n IH]; intros s str r Hle H.
  - destruct s; [discriminate | simpl in Hle; lia].
  - destruct s as [|c s]; [discriminate|]. simpl in Hle.
    cbn [parse_chars] in H.
    destruct (c =? quote_mark)%char.
    { injection H as <- <-. simpl. lia. }
    destruct (c =? backslash)%char.
    { destruct s as [|e r1]; [discriminate|]. simpl in Hle.
      destruct (e =? "u")%char.
      - destruct r1 as [|h1 [|h2 [|h3 [|h4 r2]]]]; try discriminate.
        simpl in Hle.
        destruct (hex_value h1), (hex_value h2), (hex_value h3), (hex_value h4);
          try discriminate.
        apply prepend_some in H as [str' H].
        apply IH in H; [|lia]. simpl. lia.
      - destruct (escape e); [|discriminate].
        apply prepend_some in H as [str' H].
        apply IH in H; [|lia]. simpl. lia. }
    destruct (nat_of_ascii c <? 32)%nat; [discriminate|].
    apply prepend_some in H as [str' H].
    apply IH in H; [|lia]. simpl. lia.
Qed.

Lemma lex_int_length (s int r : string) :
  lex_int s = Some (int, r) -> String.length r < String.length s.
Proof.
  destruct s as [|c s]; simpl; [discriminate|].
  destruct (c =? "0")%char.
  - intros H. injection H as <- <-. lia.
  - destruct (is_digit c); [|discriminate].
    destruct (span_digits s) as [ds r'] eqn:E.
    intros H. injection H as <- <-.
    apply span_digits_length in E. lia.
Qed.

Lemma lex_frac_length (s frac r : string) :
  lex_frac s = Some (frac, r) -> String.length r <= String.length s.
Proof.
  destruct s as [|c s]; simpl.
  - intros H. injection H as <- <-. simpl. lia.
  - destruct (c =? ".")%char.
    + destruct (span_digits s) as [ds r'] eqn:E.
      destruct (ds =? ""); [discriminate|].
      intros H. injection H as <- <-.
      apply span_digits_length in E. lia.
    + intros H. injection H as <- <-. simpl. lia.
Qed.

Lemma lex_exp_length (s exp r : string) :
  lex_exp s = Some (exp, r) -> String.length r <= String.length s.
Proof.
  destruct s as [|c s]; simpl.
  - intros H. injection H as <- <-. simpl. lia.
  - destruct ((c =? "e")%char || (c =? "E")%char).
    + destruct s as [|c1 r1].
      * simpl. discriminate.
      * destruct (c1 =? "+")%char;
          [|destruct (c1 =? "-")%char];
          match goal with
          | |- context [span_digits ?x] =>
              destruct (span_digits x) as [ds r'] eqn:E
          end;
          (destruct (ds =? ""); [discriminate|]);
          intros H; injection H as <- <-;
          apply span_digits_length in E; simpl in *; lia.
    + intros H. injection H as <- <-. simpl. lia.
Qed.

Lemma lex_number_length (s : string) (neg : bool) (int frac exp r : string) :
  lex_number s = Some (neg, int, frac, exp, r) ->
  String.length r < String.length s.
Proof.
  unfold lex_number.
  set (p := match s with
            | String c r0 => if (c =? "-")%char then (true, r0) else (false, s)
            | EmptyString => (false, s)
            end).
  assert (Hp : String.length (snd p) <= String.length s).
  { subst p. destruct s as [|c r0]; simpl; [lia|].
    destruct (c =? "-")%char; simpl; lia. }
  destruct p as [neg' s1]. simpl in Hp.
  destruct (lex_int s1) as [[int' s2]|] eqn:E1; [|discriminate].
  destruct (lex_frac s2) as [[frac' s3]|] eqn:E2; [|discriminate].
  destruct (lex_exp s3) as [[exp' s4]|] eqn:E3; [|discriminate].
  intros H. injection H as <- <- <- <- <-.
  apply lex_int_length in E1. apply lex_frac_length in E2.
  apply lex_exp_length in E3. lia.
Qed.

Ltac rewrite_tests :=
  repeat match goal with
         | H : ?x = _ |- context [?x] => rewrite H
         end.

(** Whatever a run of the parser returns with some fuel, it returns
    with any fuel above twice the length of the input (and one or two
    more); what is left of the input is shorter than the input. *)
Lemma parser_fuel (f : nat) :
  (forall s v r,
      parse_value f s = Some (v, r) ->
      String.length r < String.length s
      /\ forall f', 2 * String.length s + 1 <= f' -> parse_value f' s = Some (v, r))
  /\ (forall s acc v r,
         parse_elements f s acc = Some (v, r) ->
         String.length r < String.length s
         /\ forall f', 2 * String.length s + 2 <= f' ->
                       parse_elements f' s acc = Some (v, r))
  /\ (forall s acc v r,
         parse_members f s acc = Some (v, r) ->
         String.length r < String.length s
         /\ forall f', 2 * String.length s + 2 <= f' ->
                       parse_members f' s acc = Some (v, r)).
Proof.
  induction f as [|f [IHv [IHe IHm]]].
  { repeat split; intros; discriminate. }
  split; [|split].
  - (* a value *)
    intros s v r H. cbn [parse_value] in H.
    destruct (skip_ws s) as [|c r0] eqn:Es; [discriminate|].
    pose proof (skip_ws_length s) as Hs. rewrite Es in Hs. simpl in Hs.
    destruct (c =? "n")%char eqn:T1.
    { destruct (expect "ull" r0) as [r'|] eqn:Ee; [|discriminate].
      injection H as <- <-. apply expect_length in Ee as Hl.
      split; [lia|]. intros [|f'] Hf'; [lia|].
      cbn [parse_value]. rewrite_tests. reflexivity. }
    destruct (c =? "t")%char eqn:T2.
    { destruct (expect "rue" r0) as [r'|] eqn:Ee; [|discriminate].
      injection H as <- <-. apply expect_length in Ee as Hl.
      split; [lia|]. intros [|f'] Hf'; [lia|].
      cbn [parse_value]. rewrite_tests. reflexivity. }
    destruct (c =? "f")%char eqn:T3.
    { destruct (expect "alse" r0) as [r'|] eqn:Ee; [|discriminate].
      injection H as <- <-. apply expect_length in Ee as Hl.
      split; [lia|]. intros [|f'] Hf'; [lia|].
      cbn [parse_value]. rewrite_tests. reflexivity. }
    destruct (c =? quote_mark)%char eqn:T4.
    { destruct (parse_chars r0) as [[str r']|] eqn:Ec; [|discriminate].
      injection H as <- <-. apply parse_chars_length in Ec as Hl.
      split; [lia|]. intros [|f'] Hf'; [lia|].
      cbn [parse_value]. rewrite_tests. reflexivity. }
    destruct (c =? "[")%char eqn:T5.
    { destruct (skip_ws r0) as [|c1 r1] eqn:Es1; [discriminate|].
      pose proof (skip_ws_length r0) as Hs1. rewrite Es1 in Hs1. simpl in Hs1.
      destruct (c1 =? "]")%char eqn:T6.
      - injection H as <- <-.
        split; [lia|]. intros [|f'] Hf'; [lia|].
        cbn [parse_value]. rewrite_tests. reflexivity.
      - apply IHe in H as [Hl Hf]. simpl in Hl.
        split; [lia|]. intros [|f'] Hf'; [lia|].
        cbn [parse_value]. rewrite_tests. apply Hf. simpl. lia. }
    destruct (c =? "{")%char eqn:T7.
    { destruct (skip_ws r0) as [|c1 r1] eqn:Es1; [discriminate|].
      pose proof (skip_ws_length r0) as Hs1. rewrite Es1 in Hs1. simpl in Hs1.
      destruct (c1 =? "}")%char eqn:T6.
      - injection H as <- <-.
        split; [lia|]. intros [|f'] Hf'; [lia|].
        cbn [parse_value]. rewrite_tests. reflexivity.
      - apply IHm in H as [Hl Hf]. simpl in Hl.
        split; [lia|]. intros [|f'] Hf'; [lia|].
        cbn [parse_value]. rewrite_tests. apply Hf. simpl. lia. }
    destruct (lex_number (String c r0))
      as [[[[[neg int] frac] exp] r']|] eqn:El; [|discriminate].
    injection H as <- <-. apply lex_number_length in El as Hl. simpl in Hl.
    split; [lia|]. intros [|f'] Hf'; [lia|].
    cbn [parse_value]. rewrite_tests. reflexivity.
  - (* the elements of an array *)
    intros s acc v r H. cbn [parse_elements] in H.
    destruct (parse_value f s) as [[v0 r0]|] eqn:Ev; [|discriminate].
    apply IHv in Ev as [Hl0 Hf0].
    destruct (skip_ws r0) as [|c r1] eqn:Es; [discriminate|].
    pose proof (skip_ws_length r0) as Hs. rewrite Es in Hs. simpl in Hs.
    destruct (c =? ",")%char eqn:T1.
    + apply IHe in H as [Hl Hf].
      split; [lia|]. intros [|f'] Hf'; [lia|].
      cbn [parse_elements]. rewrite (Hf0 f') by lia. rewrite_tests.
      apply Hf. lia.
    + destruct (c =? "]")%char eqn:T2; [|discriminate].
      injection H as <- <-.
      split; [lia|]. intros [|f'] Hf'; [lia|].
      cbn [parse_elements]. rewrite (Hf0 f') by lia. rewrite_tests.
      reflexivity.
  - (* the members of an object *)
    intros s acc v r H. cbn [parse_members] in H.
    destruct (skip_ws s) as [|c r0] eqn:Es; [discriminate|].
    pose proof (skip_ws_length s) as Hs. rewrite Es in Hs. simpl in Hs.
    destruct (c =? quote_mark)%char eqn:T1; [|discriminate].
    destruct (parse_chars r0) as [[key r1]|] eqn:Ec; [|discriminate].
    apply parse_chars_length in Ec as Hl1.
    destruct (skip_ws r1) as [|c2 r2] eqn:Es2; [discriminate|].
    pose proof (skip_ws_length r1) as Hs2. rewrite Es2 in Hs2. simpl in Hs2.
    destruct (c2 =? ":")%char eqn:T2; [|discriminate].
    destruct (parse_value f r2) as [[v0 r3]|] eqn:Ev; [|discriminate].
    apply IHv in Ev as [Hl3 Hf3].
    destruct (skip_ws r3) as [|c4 r4] eqn:Es4; [discriminate|].
    pose proof (skip_ws_length r3) as Hs4. rewrite Es4 in Hs4. simpl in Hs4.
    destruct (c4 =? ",")%char eqn:T3.
    + apply IHm in H as [Hl Hf].
      split; [lia|]. intros [|f'] Hf'; [lia|].
      cbn [parse_members]. rewrite_tests. rewrite (Hf3 f') by lia.
      rewrite_tests. apply Hf. lia.
    + destruct (c4 =? "}")%char eqn:T4; [|discriminate].
      injection H as <- <-.
      split; [lia|]. intros [|f'] Hf'; [lia|].
      cbn [parse_members]. rewrite_tests. rewrite (Hf3 f') by lia.
      rewrite_tests. reflexivity.
Qed.

(** The fuel [JSON_parse] gives is enough: a text that some amount of
    fuel parses is parsed by [JSON_parse], to the same value. *)
Theorem JSON_parse_fuel (fuel : nat) (text : string) (v : Value) (rest : string) :
  parse_value fuel text = Some (v, rest) ->
  parse_value (2 * String.length text + 1) text = Some (v, rest).
Proof.
  intros H. destruct (parser_fuel fuel) as [Hv _].
  apply (Hv text v rest H). lia.
Qed.

Corollary JSON_parse_accepts (fuel : nat) (text : string) (v : Value) (rest : string) :
  parse_value fuel text = Some (v, rest) ->
  skip_ws rest = "" ->
  JSON_parse text = Normal v.
Proof.
  intros H Hr. unfold JSON_parse.
  rewrite (JSON_parse_fuel fuel text v rest H), Hr. reflexivity.
Qed.

(** The parser on a few texts. *)
Example parse_q1_results_text : JSON_parse q1_results_text = Normal q1_results.
Proof. reflexivity. Qed.

Example parse_literals :
  JSON_parse " [null, true, false, 12, -0, [], {}] "
  = Normal (JArray [JNull; JBool true; JBool false; JNumber "12"; JNumber "0";
                    JArray []; JObject []]).
Proof. vm_compute. reflexivity. Qed.

(** Number tokens become doubles: an exponent is applied, a value below
    the smallest double is zero, one above the largest is Infinity, and
    an integer beyond 2^53 is rounded. *)
Example parse_numbers :
  JSON_parse "[1e2, 2.50, -12.5E-3, 0.1, 1e21, 1e-7, 1e-400, 1e400, 9007199254740993]"
  = Normal (JArray [JNumber "100"; JNumber "2.5"; JNumber "-0.0125";
                    JNumber "0.1"; JNumber "1e+21"; JNumber "1e-7";
                    JNumber "0"; JNumber "Infinity";
                    JNumber "9007199254740992"]).
Proof. vm_compute. reflexivity. Qed.

Example parse_rejects :
  (exists e, JSON_parse "undefined" = Throw e)
  /\ (exists e, JSON_parse "[object Object]" = Throw e)
  /\ (exists e, JSON_parse "" = Throw e)
  /\ (exists e, JSON_parse "[1,]" = Throw e)
  /\ (exists e, JSON_parse "{} {}" = Throw e).
Proof. repeat split; eexists; reflexivity. Qed.

(** [JSON.parse] of a value that is not a string converts it first:
    [undefined] is never JSON, [null] is. *)
Example parse_converts_its_argument :
  (exists e, JSON.parse JUndefined = Throw e)
  /\ JSON.parse JNull = Normal JNull
  /\ JSON.parse (JArray [JString "{}"]) = Normal (JObject []).
Proof. repeat split; try eexists; reflexivity. Qed.

(* ================================================================== *)
(** * Image intake *)
(* ================================================================== *)

Lemma run_app (s : State) (t1 t2 : list Effect) :
  run s (t1 ++ t2) = run (run s t1) t2.
Proof. unfold run. apply fold_left_app. Qed.

(** C2.  A selection that carries a file first calls, in this order,
    [setStatus('idle')], [setSlideContent(null)], [setError('')], which
    leaves the state with status idle, no slide content and an empty
    error and every other cell as it was; the read is started after
    that, and the preview and the base64 payload are set only when it
    delivers, on top of the reset state.  A selection that carries no
    file does nothing and leaves every cell as it was. *)
Theorem C2_handleImageUpload_resets_then_populates :
  (forall (file : File) (s : State),
      let reset := [setStatus st_idle; setSlideContent JNull; setError ""] in
      (forall outcome, exists later,
          AppJsx.handleImageUpload (Some file) outcome
          = (reset ++ readAsDataURL file :: later)%list)
      /\ run s reset
         = {| image := image s; base64ImageData := base64ImageData s;
              slideContent := JNull; status := st_idle; error := "";
              showToast := showToast s |}
      /\ (forall result,
             AppJsx.handleImageUpload (Some file) (Loaded result)
             = (reset ++ [readAsDataURL file;
                          setImage (JString result);
                          setBase64ImageData (item (split "," result) 1)])%list
             /\ run s (AppJsx.handleImageUpload (Some file) (Loaded result))
                = {| image := JString result;
                     base64ImageData := item (split "," result) 1;
                     slideContent := JNull; status := st_idle; error := "";
                     showToast := showToast s |}))
  /\ (forall (outcome : ReaderOutcome) (s : State),
         AppJsx.handleImageUpload None outcome = []
         /\ run s (AppJsx.handleImageUpload None outcome) = s).
Proof.
  split.
  - intros file s reset. repeat split.
    + intros [result|]; eexists; reflexivity.
  - intros outcome s. split; reflexivity.
Qed.

(* ================================================================== *)
(** * Clipboard text *)
(* ================================================================== *)

Lemma map_items_strings (f : string -> string) (ps : list string) :
  map_items (fun p => p <- ToString p ;; Normal (f p)) (map JString ps)
  = Normal (map f ps).
Proof.
  induction ps as [|p ps IH]; simpl.
  - reflexivity.
  - rewrite IH. reflexivity.
Qed.

Lemma get_string_truthy (v : Value) (key t : string) :
  get v key = Normal (JString t) -> ToBoolean v = true.
Proof.
  destruct v; simpl; intros H; try discriminate; reflexivity.
Qed.

(** C3.  For slide content whose [title] is the string [t] and whose
    [bulletPoints] is the array of the strings [ps], the text handed to
    the clipboard is the line Title:, then [t], an empty line, the line
    Bullet Points:, then one line per bullet, each prefixed with a dash
    and a space, in the order of [ps]; it is a function of [t] and [ps]
    alone, and it is what [copyContentToClipboard] writes. *)
Theorem C3_clipboard_text_format :
  forall (content : Value) (t : string) (ps : list string),
    get content "title" = Normal (JString t) ->
    get content "bulletPoints" = Normal (JArray (map JString ps)) ->
    AppJsx.textToCopy content
    = Normal ("Title:" ++ newline ++ t ++ newline ++ newline
              ++ "Bullet Points:" ++ newline
              ++ String.concat newline (map (fun p => "- " ++ p) ps))
    /\ (forall s outcome,
           slideContent s = content ->
           exists after,
             AppJsx.copyContentToClipboard s outcome
             = Normal (writeText
                         ("Title:" ++ newline ++ t ++ newline ++ newline
                          ++ "Bullet Points:" ++ newline
                          ++ String.concat newline (map (fun p => "- " ++ p) ps))
                       :: after)).
Proof.
  intros content t ps Ht Hb.
  assert (Htext : AppJsx.textToCopy content
                  = Normal ("Title:" ++ newline ++ t ++ newline ++ newline
                            ++ "Bullet Points:" ++ newline
                            ++ String.concat newline (map (fun p => "- " ++ p) ps))).
  { unfold AppJsx.textToCopy. rewrite Ht, Hb. simpl.
    rewrite (map_items_strings (fun p => "- " ++ p)). reflexivity. }
  split; [exact Htext|].
  intros s outcome Hs. unfold AppJsx.copyContentToClipboard.
  rewrite Hs, (get_string_truthy _ _ _ Ht), Htext. simpl.
  eexists. reflexivity.
Qed.

(** The first scenario: title Q1 Results with its two bullets. *)
Lemma C3_q1_results_text :
  (get q1_results "title" = Normal (JString "Q1 Results")
   /\ get q1_results "bulletPoints"
      = Normal (JArray (map JString ["Revenue up 12%"; "New markets opened"])))
  /\ AppJsx.textToCopy q1_results
     = Normal ("Title:" ++ newline ++ "Q1 Results" ++ newline ++ newline
               ++ "Bullet Points:" ++ newline
               ++ "- Revenue up 12%" ++ newline ++ "- New markets opened").
Proof.
  split; [split; reflexivity|].
  exact (proj1 (C3_clipboard_text_format q1_results "Q1 Results"
                  ["Revenue up 12%"; "New markets opened"]
                  eq_refl eq_refl)).
Defined.

(* ================================================================== *)
(** * Content request *)
(* ================================================================== *)

(** The trace of a request that was issued: loading, the call, then
    what the [try] block leads to. *)
Lemma generate_issued (apiKey : option string) (s : State) (outcome : FetchOutcome) :
  ToBoolean (base64ImageData s) = true ->
  AppJsx.generateSlideContent apiKey s outcome
  = ([setStatus st_loading; fetch (AppJsx.request apiKey (base64ImageData s))]
     ++ match AppJsx.try_block outcome with
        | Normal parsedJson => [setSlideContent parsedJson; setStatus st_success]
        | Throw e =>
            [console_error "Error generating content:" (Some e);
             setError ("An error occurred: " ++ message e);
             setStatus st_error]
        end)%list.
Proof.
  intros H. unfold AppJsx.generateSlideContent. rewrite H. reflexivity.
Qed.

(** The catch-all: whatever the [try] block throws ends in the error
    state, with the thrown message after a fixed prefix. *)
Lemma generate_caught (apiKey : option string) (s : State)
    (outcome : FetchOutcome) (e : JsError) :
  ToBoolean (base64ImageData s) = true ->
  AppJsx.try_block outcome = Throw e ->
  run s (AppJsx.generateSlideContent apiKey s outcome)
  = {| image := image s; base64ImageData := base64ImageData s;
       slideContent := slideContent s; status := st_error;
       error := "An error occurred: " ++ message e;
       showToast := showToast s |}.
Proof.
  intros H Ht. rewrite (generate_issued _ _ _ H), Ht. reflexivity.
Qed.

Lemma generate_parsed (apiKey : option string) (s : State)
    (outcome : FetchOutcome) (parsedJson : Value) :
  ToBoolean (base64ImageData s) = true ->
  AppJsx.try_block outcome = Normal parsedJson ->
  run s (AppJsx.generateSlideContent apiKey s outcome)
  = {| image := image s; base64ImageData := base64ImageData s;
       slideContent := parsedJson; status := st_success;
       error := error s; showToast := showToast s |}.
Proof.
  intros H Ht. rewrite (generate_issued _ _ _ H), Ht. reflexivity.
Qed.

Lemma optional_truthy (base part : Value) (rest : Value -> Completion Value) :
  optional base rest = Normal part ->
  ToBoolean part = true ->
  nullish base = false /\ rest base = Normal part.
Proof.
  unfold optional. destruct (nullish base).
  - intros H; injection H as <-. discriminate.
  - auto.
Qed.

Lemma get_not_nullish (v : Value) (key : string) :
  nullish v = false -> exists x, get v key = Normal x.
Proof. destruct v; simpl; try discriminate; eauto. Qed.

Lemma get_index_not_nullish (v : Value) (i : nat) :
  nullish v = false -> exists x, get_index v i = Normal x.
Proof. destruct v; simpl; try discriminate; eauto. Qed.

Lemma truthy_not_nullish (v : Value) : ToBoolean v = true -> nullish v = false.
Proof. destruct v; simpl; congruence. Qed.

(** When line 114 finds a truthy part, line 115 reads the [text]
    property of that same part and does not throw. *)
Lemma jsonText_of_part (result part : Value) :
  AppJsx.content_part result = Normal part ->
  ToBoolean part = true ->
  exists text, get part "text" = Normal text
               /\ AppJsx.jsonText result = Normal text.
Proof.
  unfold AppJsx.content_part, AppJsx.jsonText. intros H Hp.
  destruct (get result "candidates") as [candidates|] eqn:E1; simpl in *;
    [|discriminate].
  apply optional_truthy in H as [_ H]; [|assumption].
  destruct (get_index candidates 0) as [candidate|] eqn:E2; simpl in *;
    [|discriminate].
  apply optional_truthy in H as [_ H]; [|assumption].
  destruct (get candidate "content") as [content|] eqn:E3; simpl in *;
    [|discriminate].
  apply optional_truthy in H as [_ H]; [|assumption].
  destruct (get content "parts") as [parts|] eqn:E4; simpl in *;
    [|discriminate].
  apply optional_truthy in H as [_ H]; [|assumption].
  rewrite H. simpl.
  destruct (get_not_nullish part "text" (truthy_not_nullish _ Hp)) as [text Ht].
  exists text. split; assumption.
Qed.

Lemma append_empty (s : string) : s ++ "" = s.
Proof. induction s as [|c s IH]; simpl; [reflexivity | now rewrite IH]. Qed.

(** C4.  When the call completes with a status outside 200-299, the
    request ends in the error state, and the error message is the fixed
    text followed by the status in decimal: it is not empty and it
    mentions the status. *)
Theorem C4_non_success_status_reported :
  forall (apiKey : option string) (s : State) (response : Response),
    ToBoolean (base64ImageData s) = true ->
    ok response = false ->
    let s' := run s (AppJsx.generateSlideContent apiKey s (FetchResolved response)) in
    status s' = st_error
    /\ error s' = "An error occurred: API request failed with status "
                  ++ decimal (http_status response)
    /\ error s' <> ""
    /\ mentions (decimal (http_status response)) (error s').
Proof.
  intros apiKey s response Hb Hok s'.
  assert (Hs : s' = {| image := image s; base64ImageData := base64ImageData s;
                       slideContent := slideContent s; status := st_error;
                       error := "An error occurred: API request failed with status "
                                ++ decimal (http_status response);
                       showToast := showToast s |}).
  { subst s'.
    rewrite (generate_caught apiKey s _
               (Error ("API request failed with status "
                       ++ decimal (http_status response))) Hb).
    - reflexivity.
    - unfold AppJsx.try_block. rewrite Hok. reflexivity. }
  rewrite Hs. simpl. repeat split.
  - discriminate.
  - exists "An error occurred: API request failed with status ", "".
    now rewrite append_empty.
Qed.

(** A call that completes with status 500. *)
Lemma C4_status_500 :
  let s' := run uploaded
              (AppJsx.generateSlideContent None uploaded (FetchResolved response_500)) in
  status s' = st_error
  /\ error s' = "An error occurred: API request failed with status "
                ++ decimal (http_status response_500)
  /\ error s' <> ""
  /\ mentions (decimal (http_status response_500)) (error s').
Proof.
  exact (C4_non_success_status_reported None uploaded response_500 eq_refl eq_refl).
Defined.

(** C1, as it holds.  When the call succeeds and line 114 finds the
    part, the request ends in the success state, storing the parsed
    value whatever its shape, exactly when [JSON.parse] accepts the
    part's text; it ends in the error state, with the parser's message
    and the slide content untouched, exactly when [JSON.parse] throws.
    No test of [title] or [bulletPoints] is involved. *)
Theorem C1_success_iff_text_parses :
  forall (apiKey : option string) (s : State) (response : Response)
         (result part : Value),
    ToBoolean (base64ImageData s) = true ->
    ok response = true ->
    json response = Normal result ->
    AppJsx.content_part result = Normal part ->
    ToBoolean part = true ->
    let s' := run s (AppJsx.generateSlideContent apiKey s (FetchResolved response)) in
    exists text,
      get part "text" = Normal text
      /\ match JSON.parse text with
         | Normal parsedJson =>
             status s' = st_success /\ slideContent s' = parsedJson
             /\ error s' = error s
         | Throw e =>
             status s' = st_error /\ slideContent s' = slideContent s
             /\ error s' = "An error occurred: " ++ message e
         end.
Proof.
  intros apiKey s response result part Hb Hok Hj Hc Hp s'.
  destruct (jsonText_of_part result part Hc Hp) as [text [Hg Ht]].
  exists text. split; [exact Hg|].
  assert (Htry : AppJsx.try_block (FetchResolved response) = JSON.parse text).
  { unfold AppJsx.try_block. rewrite Hok, Hj. simpl. rewrite Hc. simpl.
    rewrite Hp, Ht. simpl. destruct (JSON.parse text); reflexivity. }
  subst s'. destruct (JSON.parse text) as [parsedJson|e] eqn:E.
  - rewrite (generate_parsed apiKey s _ parsedJson Hb Htry). auto.
  - rewrite (generate_caught apiKey s _ e Hb Htry). auto.
Qed.

(** The first scenario: the part's text is the JSON of the slide. *)
Lemma C1_q1_results_stored :
  let s' := run uploaded
              (AppJsx.generateSlideContent None uploaded
                 (FetchResolved (response_with q1_results_text))) in
  status s' = st_success /\ slideContent s' = q1_results /\ error s' = "".
Proof.
  destruct (C1_success_iff_text_parses None uploaded
              (response_with q1_results_text)
              (envelope (JString q1_results_text))
              (JObject [("text", JString q1_results_text)])
              eq_refl eq_refl eq_refl eq_refl eq_refl) as [text [Hg H]].
  injection Hg as <-. exact H.
Defined.

(** C1, as stated, fails: the call succeeds, the path is there, the
    text is the JSON of an object with neither [title] nor
    [bulletPoints], and the request ends in the success state with that
    object stored. *)
Lemma C1_empty_object_accepted :
  let s' := run uploaded
              (AppJsx.generateSlideContent None uploaded
                 (FetchResolved (response_with "{}"))) in
  ok (response_with "{}") = true
  /\ AppJsx.content_part (envelope (JString "{}"))
     = Normal (JObject [("text", JString "{}")])
  /\ JSON_parse "{}" = Normal (JObject [])
  /\ has_required_fields (JObject []) = false
  /\ status s' = st_success
  /\ status s' <> st_error
  /\ slideContent s' = JObject [].
Proof.
  cbv zeta. repeat split; try reflexivity. vm_compute. discriminate.
Qed.

(** Every value line 114 evaluates to a falsy part on is reported with
    the generic message. *)
Lemma structural_error_generic (apiKey : option string) (s : State)
    (response : Response) (result part : Value) :
  ToBoolean (base64ImageData s) = true ->
  ok response = true ->
  json response = Normal result ->
  AppJsx.content_part result = Normal part ->
  ToBoolean part = false ->
  run s (AppJsx.generateSlideContent apiKey s (FetchResolved response))
  = {| image := image s; base64ImageData := base64ImageData s;
       slideContent := slideContent s; status := st_error;
       error := "An error occurred: Unexpected API response structure.";
       showToast := showToast s |}.
Proof.
  intros Hb Hok Hj Hc Hp.
  apply (generate_caught apiKey s _ (Error "Unexpected API response structure.") Hb).
  unfold AppJsx.try_block. rewrite Hok, Hj. simpl. rewrite Hc. simpl.
  rewrite Hp. reflexivity.
Qed.

(** Line 114 throws on exactly two values, and [response.json()] can
    produce one of them: the literal null. *)
Lemma content_part_throws (result : Value) (e : JsError) :
  AppJsx.content_part result = Throw e ->
  result = JNull \/ result = JUndefined.
Proof.
  unfold AppJsx.content_part. intros H.
  destruct result; simpl in H; auto;
    unfold optional in H; simpl in H; try discriminate.
  destruct (lookup props "candidates") as [candidates|]; simpl in H;
    [|discriminate].
  destruct (nullish candidates) eqn:N1; [discriminate|].
  destruct (get_index_not_nullish candidates 0 N1) as [candidate E1].
  rewrite E1 in H. simpl in H.
  destruct (nullish candidate) eqn:N2; [discriminate|].
  destruct (get_not_nullish candidate "content" N2) as [content E2].
  rewrite E2 in H. simpl in H.
  destruct (nullish content) eqn:N3; [discriminate|].
  destruct (get_not_nullish content "parts" N3) as [parts E3].
  rewrite E3 in H. simpl in H.
  destruct (nullish parts) eqn:N4; [discriminate|].
  destruct (get_index_not_nullish parts 0 N4) as [p E4].
  rewrite E4 in H. discriminate.
Qed.

(** C5, at the input where the code departs from it.  The call
    succeeds with the body null: the envelope has no
    candidate/content/parts path, the request ends in the error state
    through the catch-all, but the message stored is that of the
    TypeError thrown by [result.candidates], not the generic one. *)
Theorem C5_null_body_message :
  let s' := run uploaded
              (AppJsx.generateSlideContent None uploaded
                 (FetchResolved response_null)) in
  ok response_null = true
  /\ json response_null = Normal JNull
  /\ status s' = st_error
  /\ error s' = "An error occurred: Cannot read properties of null (reading 'candidates')"
  /\ error s' <> "An error occurred: Unexpected API response structure.".
Proof.
  cbv zeta. repeat split; try reflexivity. vm_compute. discriminate.
Qed.

(* ================================================================== *)
(** * Presentation *)
(* ================================================================== *)

(** What is rendered, when the render does not throw, is the panel. *)
Lemma mount_normal (nodes nodes' : list Node) :
  Components.mount nodes = Normal nodes' -> nodes' = nodes.
Proof.
  revert nodes'. induction nodes as [|node rest IH]; intros nodes' H; simpl in H.
  - injection H as <-. reflexivity.
  - destruct node as [[| |content|]|text]; simpl in H;
      try destruct (Components.SuccessContent_mount content); simpl in H;
      try discriminate;
      (destruct (Components.mount rest) as [rest'|e]; simpl in H;
       [|discriminate]; injection H as <-; rewrite (IH rest' eq_refl);
       reflexivity).
Qed.

(** Outside the success status the one view of the status is rendered. *)
Lemma rendered_not_success (s : State) :
  status s <> st_success ->
  Components.rendered s
  = Normal [Component match status s with
                      | st_loading => Spinner
                      | st_error => ErrorMessage (error s)
                      | _ => Placeholder
                      end].
Proof.
  intros H. unfold Components.rendered, AppJsx.panel.
  destruct (status s); simpl; congruence.
Qed.

(** In the success status the render goes through [SuccessContent]
    when the slide content is truthy, and leaves the falsy value in
    child position otherwise. *)
Lemma rendered_success (s : State) :
  status s = st_success ->
  Components.rendered s
  = if ToBoolean (slideContent s)
    then (_ <- Components.SuccessContent_mount (slideContent s) ;;
          Normal [Component (SuccessContent (slideContent s))])
    else Normal (falsy_child (slideContent s)).
Proof.
  intros H. unfold Components.rendered, AppJsx.panel. rewrite H. simpl.
  destruct (ToBoolean (slideContent s)); simpl.
  - destruct (Components.SuccessContent_mount (slideContent s)); reflexivity.
  - rewrite app_nil_r. destruct (slideContent s); reflexivity.
Qed.

Lemma valid_child_array (items : list Value) :
  Components.valid_child (JArray items)
  = forallb Components.valid_child items.
Proof. induction items as [|x rest IH]; simpl in *; congruence. Qed.

Lemma valid_indexed (from : nat) (points : list Value) :
  forallb (fun item => Components.valid_child (snd item))
    (Components.indexed from points)
  = forallb Components.valid_child points.
Proof.
  revert from. induction points as [|x rest IH]; intros from; simpl;
    [reflexivity | rewrite IH; reflexivity].
Qed.

(** [SuccessContent] mounts exactly the slides whose [bulletPoints] is
    an array and whose title and bullets React accepts as children; it
    throws a TypeError when [bulletPoints] is not an array. *)
Lemma mount_cases (content : Value) :
  ToBoolean content = true ->
  exists title bulletPoints,
    get content "title" = Normal title
    /\ get content "bulletPoints" = Normal bulletPoints
    /\ match bulletPoints with
       | JArray points =>
           if Components.valid_child title
              && forallb Components.valid_child points
           then Components.SuccessContent_mount content
                = Normal {| Components.heading := title;
                            Components.bullets := Components.indexed 0 points |}
           else exists e, Components.SuccessContent_mount content = Throw e
                          /\ name e = "Error"
       | _ => exists e, Components.SuccessContent_mount content = Throw e
                        /\ name e = "TypeError"
       end.
Proof.
  intros Hc.
  destruct (get_not_nullish content "title" (truthy_not_nullish _ Hc))
    as [title Et].
  destruct (get_not_nullish content "bulletPoints" (truthy_not_nullish _ Hc))
    as [bulletPoints Eb].
  exists title, bulletPoints. split; [exact Et|]. split; [exact Eb|].
  unfold Components.SuccessContent_mount, Components.SuccessContent_render.
  rewrite Et, Eb. simpl.
  destruct bulletPoints as [| | | | |points|]; simpl;
    try (eexists; split; reflexivity).
  rewrite valid_indexed.
  destruct (Components.valid_child title && forallb Components.valid_child points);
    [reflexivity | eexists; split; reflexivity].
Qed.

(** C6, as it holds.  With status success and no slide content the
    panel is empty: none of the four views is rendered, the idle
    placeholder included.  Whenever the component renders, it renders
    at most one of the four views: exactly one when the status is not
    success; none when the status is success and the slide content is
    falsy.  When the status is success and the slide content is truthy,
    the success view alone is rendered if [bulletPoints] is an array and
    neither the title nor a bullet is or holds a plain object; otherwise
    rendering [SuccessContent] throws, and nothing at all is rendered. *)
Theorem C6_panel_views :
  forall s : State,
    (status s = st_success -> slideContent s = JNull ->
     AppJsx.panel s = [] /\ Components.rendered s = Normal [])
    /\ (forall nodes,
           Components.rendered s = Normal nodes ->
           nodes = AppJsx.panel s /\ length (filter is_view nodes) <= 1)
    /\ (status s <> st_success ->
        exists view, Components.rendered s = Normal [Component view])
    /\ (status s = st_success -> ToBoolean (slideContent s) = false ->
        exists nodes, Components.rendered s = Normal nodes
                      /\ filter is_view nodes = [])
    /\ (status s = st_success -> ToBoolean (slideContent s) = true ->
        exists title bulletPoints,
          get (slideContent s) "title" = Normal title
          /\ get (slideContent s) "bulletPoints" = Normal bulletPoints
          /\ match bulletPoints with
             | JArray points =>
                 if Components.valid_child title
                    && forallb Components.valid_child points
                 then Components.rendered s
                      = Normal [Component (SuccessContent (slideContent s))]
                 else exists e, Components.rendered s = Throw e
             | _ => exists e, Components.rendered s = Throw e
                              /\ name e = "TypeError"
             end).
Proof.
  intros s. split; [|split; [|split; [|split]]].
  - intros Hs Hc. split.
    + unfold AppJsx.panel. rewrite Hs, Hc. reflexivity.
    + rewrite (rendered_success s Hs), Hc. reflexivity.
  - intros nodes H. apply mount_normal in H. subst nodes.
    split; [reflexivity|].
    unfold AppJsx.panel. destruct (status s); simpl; auto.
    destruct (ToBoolean (slideContent s)); simpl; auto.
    destruct (slideContent s); simpl; auto.
  - intros Hs. eexists. apply (rendered_not_success s Hs).
  - intros Hs Hc. rewrite (rendered_success s Hs), Hc.
    eexists. split; [reflexivity|].
    destruct (slideContent s); reflexivity.
  - intros Hs Hc. rewrite (rendered_success s Hs), Hc.
    destruct (mount_cases (slideContent s) Hc)
      as [title [bulletPoints [Et [Eb H]]]].
    exists title, bulletPoints. split; [exact Et|]. split; [exact Eb|].
    destruct bulletPoints as [| | | | |points|];
      try (destruct H as [e [He Hn]]; exists e; rewrite He; split;
           [reflexivity | exact Hn]).
    destruct (Components.valid_child title
              && forallb Components.valid_child points).
    + rewrite H. reflexivity.
    + destruct H as [e [He _]]. exists e. rewrite He. reflexivity.
Qed.

(** Status success without slide content: an empty panel, rendered as
    such. *)
Lemma C6_success_without_content :
  AppJsx.panel (showing JNull) = []
  /\ Components.rendered (showing JNull) = Normal [].
Proof.
  exact (proj1 (C6_panel_views (showing JNull)) eq_refl eq_refl).
Defined.

(** The slide of the first scenario is rendered in the success view;
    the object without fields, which a request stores just as well, is
    not rendered: [SuccessContent] throws on it. *)
Example rendered_slides :
  Components.rendered (showing q1_results)
  = Normal [Component (SuccessContent q1_results)]
  /\ Components.rendered (showing (JObject []))
     = Throw (TypeError "Cannot read properties of undefined (reading 'map')")
  /\ Components.rendered
       (showing (JObject [("title", JObject []); ("bulletPoints", JArray [])]))
     = Throw (Error "Objects are not valid as a React child").
Proof. repeat split. Qed.

(** C6, as stated, fails.  A part whose text is the JSON literal null
    leads to status success with null slide content; the panel is then
    empty, which is not what the idle state renders, and zero views are
    rendered, not one. *)
Lemma C6_success_null_renders_nothing :
  let s := run uploaded
             (AppJsx.generateSlideContent None uploaded
                (FetchResolved (response_with "null"))) in
  status s = st_success
  /\ slideContent s = JNull
  /\ AppJsx.panel s = []
  /\ AppJsx.panel initial = [Component Placeholder]
  /\ AppJsx.panel s <> AppJsx.panel initial
  /\ length (filter is_view (AppJsx.panel s)) <> 1.
Proof.
  cbv zeta. repeat split; try reflexivity; vm_compute; discriminate.
Qed.

(* ================================================================== *)
(** * Clipboard export *)
(* ================================================================== *)

(** The trace of an export whose write is rejected. *)
Lemma copy_rejected (s : State) (err : JsError) (text : string) :
  ToBoolean (slideContent s) = true ->
  AppJsx.textToCopy (slideContent s) = Normal text ->
  AppJsx.copyContentToClipboard s (WriteRejected err)
  = Normal [writeText text;
            console_error "Failed to copy text: " (Some err);
            setError "Could not copy text to clipboard.";
            setStatus st_error].
Proof.
  intros Hc Ht. unfold AppJsx.copyContentToClipboard.
  rewrite Hc, Ht. reflexivity.
Qed.

(** C7.  When the text is handed to the clipboard and the write is
    rejected, the export ends with status error and the fixed message,
    whatever the status was; the panel then shows the error and no
    longer the content; [setShowToast] is not called, so the toast cell
    keeps its value, and a toast that was hidden stays hidden at every
    later time. *)
Theorem C7_failed_write_overwrites_success :
  forall (s : State) (err : JsError) (text : string),
    ToBoolean (slideContent s) = true ->
    AppJsx.textToCopy (slideContent s) = Normal text ->
    exists trace,
      AppJsx.copyContentToClipboard s (WriteRejected err) = Normal trace
      /\ (forall b, ~ In (setShowToast b) trace)
      /\ status (run s trace) = st_error
      /\ error (run s trace) = "Could not copy text to clipboard."
      /\ showToast (run s trace) = showToast s
      /\ AppJsx.panel (run s trace)
         = [Component (ErrorMessage "Could not copy text to clipboard.")]
      /\ (status s = st_success -> showToast s = false ->
          forall now t,
            AppJsx_toastAt t
              (AppJsx_click now (WriteRejected err)
                 {| Runtime.state := s; Runtime.timer := None |})
            = false).
Proof.
  intros s err text Hc Ht. eexists. split; [apply (copy_rejected s err text Hc Ht)|].
  repeat split.
  - intros b [H|[H|[H|[H|[]]]]]; discriminate.
  - intros Hst Htoast now t.
    unfold AppJsx_toastAt, AppJsx_click, Runtime.toastAt, Runtime.click.
    unfold Runtime.advance at 2. simpl.
    unfold AppJsx.copyDisabled. rewrite Hst. simpl.
    rewrite (copy_rejected s err text Hc Ht).
    unfold Runtime.commit, Runtime.advance. simpl.
    rewrite Htoast. simpl. reflexivity.
Qed.

(** A rejected write while the first scenario's slide is shown. *)
Lemma C7_q1_results_write_rejected :
  exists trace,
    AppJsx.copyContentToClipboard (showing q1_results)
      (WriteRejected (mkError "NotAllowedError" "Write permission denied."))
    = Normal trace
    /\ (forall b, ~ In (setShowToast b) trace)
    /\ status (run (showing q1_results) trace) = st_error
    /\ error (run (showing q1_results) trace) = "Could not copy text to clipboard."
    /\ showToast (run (showing q1_results) trace) = false
    /\ AppJsx.panel (run (showing q1_results) trace)
       = [Component (ErrorMessage "Could not copy text to clipboard.")]
    /\ (forall now t,
          AppJsx_toastAt t
            (AppJsx_click now
               (WriteRejected (mkError "NotAllowedError" "Write permission denied."))
               (live q1_results))
          = false).
Proof.
  destruct (C7_failed_write_overwrites_success (showing q1_results)
              (mkError "NotAllowedError" "Write permission denied.")
              _ eq_refl eq_refl)
    as [trace [H1 [H2 [H3 [H4 [H5 [H6 H7]]]]]]].
  exists trace.
  exact (conj H1 (conj H2 (conj H3 (conj H4 (conj H5 (conj H6
           (fun now t => H7 eq_refl eq_refl now t))))))).
Defined.

(** C10.  An export whose write is rejected changes the status and the
    error message and nothing else: the slide content, the preview, the
    base64 payload and the toast cell keep their values.  An export
    started while the slide content is null does nothing at all: no
    setter is called and nothing is handed to the clipboard. *)
Theorem C10_failed_write_frame :
  (forall (s : State) (err : JsError) (text : string),
      ToBoolean (slideContent s) = true ->
      AppJsx.textToCopy (slideContent s) = Normal text ->
      exists trace,
        AppJsx.copyContentToClipboard s (WriteRejected err) = Normal trace
        /\ run s trace
           = {| image := image s; base64ImageData := base64ImageData s;
                slideContent := slideContent s; status := st_error;
                error := "Could not copy text to clipboard.";
                showToast := showToast s |})
  /\ (forall (s : State) (outcome : ClipboardOutcome),
         slideContent s = JNull ->
         AppJsx.copyContentToClipboard s outcome = Normal []
         /\ run s [] = s).
Proof.
  split.
  - intros s err text Hc Ht. eexists.
    split; [apply (copy_rejected s err text Hc Ht)|]. reflexivity.
  - intros s outcome H. unfold AppJsx.copyContentToClipboard.
    rewrite H. split; reflexivity.
Qed.

(** The frame on the first scenario's slide, and an export without
    content. *)
Lemma C10_q1_results_frame :
  (exists trace,
      AppJsx.copyContentToClipboard (showing q1_results)
        (WriteRejected (mkError "NotAllowedError" "Write permission denied."))
      = Normal trace
      /\ run (showing q1_results) trace
         = {| image := image (showing q1_results);
              base64ImageData := base64ImageData (showing q1_results);
              slideContent := q1_results; status := st_error;
              error := "Could not copy text to clipboard.";
              showToast := false |})
  /\ AppJsx.copyContentToClipboard uploaded WriteResolved = Normal [].
Proof.
  split.
  - exact (proj1 C10_failed_write_frame (showing q1_results)
             (mkError "NotAllowedError" "Write permission denied.")
             _ eq_refl eq_refl).
  - exact (proj1 (proj2 C10_failed_write_frame uploaded WriteResolved eq_refl)).
Defined.

(* ================================================================== *)
(** * The toast *)
(* ================================================================== *)

(** The trace of an export whose write succeeds. *)
Lemma copy_resolved (s : State) (text : string) :
  ToBoolean (slideContent s) = true ->
  AppJsx.textToCopy (slideContent s) = Normal text ->
  AppJsx.copyContentToClipboard s WriteResolved
  = Normal [writeText text; setShowToast true].
Proof.
  intros Hc Ht. unfold AppJsx.copyContentToClipboard.
  rewrite Hc, Ht. reflexivity.
Qed.

(** A successful export from a state without toast shows it and sets
    the timer, due 2000 ms later. *)
Lemma click_shows_toast (rt : Runtime.Runtime) (text : string) (now : N) :
  status (Runtime.state rt) = st_success ->
  showToast (Runtime.state rt) = false ->
  Runtime.timer rt = None ->
  ToBoolean (slideContent (Runtime.state rt)) = true ->
  AppJsx.textToCopy (slideContent (Runtime.state rt)) = Normal text ->
  AppJsx_click now WriteResolved rt
  = {| Runtime.state := toasting (Runtime.state rt) true;
       Runtime.timer := Some (now + 2000)%N |}.
Proof.
  intros Hst Htoast Htimer Hc Ht. destruct rt as [s timer]. simpl in *. subst timer.
  unfold AppJsx_click, Runtime.click, Runtime.advance. simpl.
  unfold AppJsx.copyDisabled. rewrite Hst. simpl.
  rewrite (copy_resolved s text Hc Ht).
  unfold Runtime.commit. simpl. rewrite Htoast. reflexivity.
Qed.

(** A successful export while the toast is shown and its timer is not
    yet due changes nothing: the cell already holds [true], the effect
    is not run again, the timer keeps its due time. *)
Lemma click_while_toast_shown (s : State) (text : string) (due now : N) :
  status s = st_success ->
  ToBoolean (slideContent s) = true ->
  AppJsx.textToCopy (slideContent s) = Normal text ->
  (now < due)%N ->
  AppJsx_click now WriteResolved
    {| Runtime.state := toasting s true; Runtime.timer := Some due |}
  = {| Runtime.state := toasting s true; Runtime.timer := Some due |}.
Proof.
  intros Hst Hc Ht Hlt.
  unfold AppJsx_click, Runtime.click, Runtime.advance. simpl.
  apply N.leb_gt in Hlt. rewrite Hlt. simpl.
  unfold AppJsx.copyDisabled. simpl. rewrite Hst. simpl.
  rewrite (copy_resolved (toasting s true) text Hc Ht).
  reflexivity.
Qed.

(** The toast is shown until its timer is due, and hidden from then. *)
Lemma toast_until_due (s : State) (due t : N) :
  AppJsx_toastAt t {| Runtime.state := toasting s true; Runtime.timer := Some due |}
  = (t <? due)%N.
Proof.
  unfold AppJsx_toastAt, Runtime.toastAt, Runtime.advance. simpl.
  rewrite N.ltb_antisym. destruct (due <=? t)%N; reflexivity.
Qed.

(** C8, as it holds.  A successful export from a state without toast
    shows the toast for 2000 ms from that export.  A second successful
    export before the 2000 ms are over changes neither the state nor the
    timer: there is still one timer, due 2000 ms after the first export,
    and the toast disappears then, not 2000 ms after the second. *)
Theorem C8_toast_window_runs_from_first_export :
  forall (rt : Runtime.Runtime) (text : string) (t1 t2 : N),
    status (Runtime.state rt) = st_success ->
    showToast (Runtime.state rt) = false ->
    Runtime.timer rt = None ->
    ToBoolean (slideContent (Runtime.state rt)) = true ->
    AppJsx.textToCopy (slideContent (Runtime.state rt)) = Normal text ->
    (t1 <= t2)%N ->
    (t2 < t1 + 2000)%N ->
    let rt1 := AppJsx_click t1 WriteResolved rt in
    let rt2 := AppJsx_click t2 WriteResolved rt1 in
    (forall t, AppJsx_toastAt t rt1 = (t <? t1 + 2000)%N)
    /\ Runtime.timer rt1 = Some (t1 + 2000)%N
    /\ rt2 = rt1
    /\ (forall t, AppJsx_toastAt t rt2 = (t <? t1 + 2000)%N).
Proof.
  intros rt text t1 t2 Hst Htoast Htimer Hc Ht H12 H21 rt1 rt2.
  assert (E1 : rt1 = {| Runtime.state := toasting (Runtime.state rt) true;
                        Runtime.timer := Some (t1 + 2000)%N |}).
  { apply (click_shows_toast rt text t1); assumption. }
  assert (E2 : rt2 = rt1).
  { subst rt2. rewrite E1.
    apply (click_while_toast_shown (Runtime.state rt) text); assumption. }
  split; [|split; [|split]].
  - intros t. rewrite E1. apply toast_until_due.
  - rewrite E1. reflexivity.
  - exact E2.
  - intros t. rewrite E2, E1. apply toast_until_due.
Qed.

(** Exports at 0 ms and at 1000 ms of the first scenario's slide. *)
Lemma C8_exports_at_0_and_1000 :
  let rt1 := AppJsx_click 0 WriteResolved (live q1_results) in
  let rt2 := AppJsx_click 1000 WriteResolved rt1 in
  (forall t, AppJsx_toastAt t rt1 = (t <? 0 + 2000)%N)
  /\ Runtime.timer rt1 = Some (0 + 2000)%N
  /\ rt2 = rt1
  /\ (forall t, AppJsx_toastAt t rt2 = (t <? 0 + 2000)%N).
Proof.
  exact (C8_toast_window_runs_from_first_export (live q1_results) _ 0 1000
           eq_refl eq_refl eq_refl eq_refl eq_refl
           (proj1 (N.leb_le 0 1000) eq_refl) eq_refl).
Defined.

(** C8, as stated, fails.  After exports at 0 ms and at 1000 ms the
    toast is shown at 1999 ms and gone at 2000 ms, and so at 2500 ms,
    which is less than 2000 ms after the second export. *)
Lemma C8_toast_gone_before_second_window_ends :
  let rt2 := AppJsx_click 1000 WriteResolved
               (AppJsx_click 0 WriteResolved (live q1_results)) in
  AppJsx_toastAt 1000 rt2 = true
  /\ AppJsx_toastAt 1999 rt2 = true
  /\ AppJsx_toastAt 2000 rt2 = false
  /\ AppJsx_toastAt 2500 rt2 = false
  /\ (2500 <? 1000 + 2000)%N = true.
Proof.
  cbv zeta. repeat split; vm_compute; reflexivity.
Qed.

(* ================================================================== *)
(** * The two variants *)
(* ================================================================== *)

(** C9.  The two copies of the component agree on every input: the
    same setter traces from [handleImageUpload], [generateSlideContent]
    and [copyContentToClipboard] (hence the same state transitions), the
    same request, the same text for the clipboard, the same choice of
    view, the same effects and the same behaviour of the toast. *)
Theorem C9_variants_agree :
  (forall file outcome,
      AppJsx.handleImageUpload file outcome = Part000.handleImageUpload file outcome)
  /\ (forall apiKey base64ImageData,
         AppJsx.request apiKey base64ImageData = Part000.request apiKey base64ImageData)
  /\ (forall apiKey s outcome,
         AppJsx.generateSlideContent apiKey s outcome
         = Part000.generateSlideContent apiKey s outcome)
  /\ (forall content, AppJsx.textToCopy content = Part000.textToCopy content)
  /\ (forall s outcome,
         AppJsx.copyContentToClipboard s outcome
         = Part000.copyContentToClipboard s outcome)
  /\ (forall s,
         AppJsx.panel s = Part000.panel s
         /\ AppJsx.copyDisabled s = Part000.copyDisabled s
         /\ AppJsx.toastShown s = Part000.toastShown s
         /\ AppJsx.imageEffect s = Part000.imageEffect s
         /\ AppJsx.toastEffect s = Part000.toastEffect s)
  /\ AppJsx.toastTimeout = Part000.toastTimeout
  /\ (forall now outcome rt,
         AppJsx_click now outcome rt = Part000_click now outcome rt)
  /\ (forall now rt, AppJsx_toastAt now rt = Part000_toastAt now rt).
Proof.
  repeat split.
Qed.

(* ================================================================== *)
(** * A whole session *)
(* ================================================================== *)

(** An image is selected and read, the effect on [base64ImageData]
    issues the request, the endpoint answers with the first scenario's
    slide, the panel shows it, and the export writes its text and shows
    the toast. *)
Example session_q1_results :
  let s1 := run initial
              (AppJsx.handleImageUpload (Some (mkFile "chart.png"))
                 (Loaded "data:image/png;base64,AAAA")) in
  let s2 := run s1
              (AppJsx.generateSlideContent (Some "KEY") s1
                 (FetchResolved (response_with q1_results_text))) in
  base64ImageData s1 = JString "AAAA"
  /\ AppJsx.imageEffect s1 = true
  /\ status s2 = st_success
  /\ AppJsx.panel s2 = [Component (SuccessContent q1_results)]
  /\ AppJsx.copyDisabled s2 = false
  /\ AppJsx.copyContentToClipboard s2 WriteResolved
     = Normal [writeText ("Title:" ++ newline ++ "Q1 Results" ++ newline ++ newline
                          ++ "Bullet Points:" ++ newline
                          ++ "- Revenue up 12%" ++ newline ++ "- New markets opened");
               setShowToast true].
Proof. cbv zeta. repeat split. Qed.

(* ================================================================== *)
(** * Writing and reading JSON *)
(* ================================================================== *)

Lemma string_append_assoc (a b c : string) : (a ++ b) ++ c = a ++ (b ++ c).
Proof. induction a as [|x a IH]; simpl; [reflexivity | now rewrite IH]. Qed.

Lemma value_refuel (f : nat) (s : string) (v : Value) (r : string) :
  parse_value f s = Some (v, r) ->
  forall f', 2 * String.length s + 1 <= f' -> parse_value f' s = Some (v, r).
Proof. intros H. destruct (parser_fuel f) as [Hv _]. apply (Hv s v r H). Qed.

Lemma elements_refuel (f : nat) (s : string) (acc : list Value) (v : Value)
    (r : string) :
  parse_elements f s acc = Some (v, r) ->
  forall f', 2 * String.length s + 2 <= f' -> parse_elements f' s acc = Some (v, r).
Proof. intros H. destruct (parser_fuel f) as [_ [He _]]. apply (He s acc v r H). Qed.

Lemma members_refuel (f : nat) (s : string) (acc : list (string * Value))
    (v : Value) (r : string) :
  parse_members f s acc = Some (v, r) ->
  forall f', 2 * String.length s + 2 <= f' -> parse_members f' s acc = Some (v, r).
Proof. intros H. destruct (parser_fuel f) as [_ [_ Hm]]. apply (Hm s acc v r H). Qed.

(** Reading one quoted character gives the character back. *)
Lemma parse_chars_quoted_char (c : ascii) (r tail : string) :
  parse_chars (quote_chars (String c r) ++ tail)
  = prepend (String c EmptyString) (parse_chars (quote_chars r ++ tail)).
Proof.
  destruct c as [[] [] [] [] [] [] [] []]; reflexivity.
Qed.

(** Reading a quoted string gives the string back, whatever it holds. *)
Lemma parse_chars_quoted (s rest : string) :
  parse_chars (quote_chars s ++ String quote_mark rest) = Some (s, rest).
Proof.
  induction s as [|c s IH].
  - reflexivity.
  - rewrite parse_chars_quoted_char, IH. reflexivity.
Qed.

Lemma stringify_defined (v : Value) :
  v <> JUndefined -> JSON_stringify v = Some (text_of v).
Proof.
  intros H. unfold text_of. destruct (JSON_stringify v) eqn:E; [reflexivity|].
  destruct v as [| |[]| | | |]; try discriminate. congruence.
Qed.

Lemma textual_defined (v : Value) : textual v = true -> v <> JUndefined.
Proof. intros H ->. discriminate. Qed.

Lemma textual_array (items : list Value) :
  textual (JArray items) = forallb textual items.
Proof.
  reflexivity.
Qed.

Lemma textual_object (props : list (string * Value)) :
  textual (JObject props)
  = distinct (map fst props) && forallb (fun member => textual (snd member)) props.
Proof.
  simpl. f_equal. induction props as [|[k x] props IH]; [reflexivity|].
  simpl. now rewrite IH.
Qed.

Lemma text_of_array (items : list Value) :
  text_of (JArray items) = "[" ++ String.concat "," (map text_of items) ++ "]".
Proof.
  reflexivity.
Qed.

Lemma text_of_object (props : list (string * Value)) :
  forallb (fun member => textual (snd member)) props = true ->
  text_of (JObject props) = "{" ++ String.concat "," (map member_text props) ++ "}".
Proof.
  intros H. unfold text_of at 1. cbn [JSON_stringify].
  match goal with
  | |- context [String.concat "," (?each props)] =>
      assert (E : each props = map member_text props)
  end; [|now rewrite E].
  induction props as [|[k x] props IH]; [reflexivity|].
  simpl in H. apply andb_prop in H as [Hx Hr].
  rewrite (stringify_defined x (textual_defined x Hx)).
  rewrite (IH Hr). reflexivity.
Qed.

(** The first character of what is written for a value tells its kind;
    it is no white space and closes nothing. *)
Lemma text_of_head (v : Value) :
  textual v = true ->
  exists c t,
    text_of v = String c t
    /\ is_ws c = false
    /\ (c =? "]")%char = false
    /\ (c =? ",")%char = false.
Proof.
  intros H. destruct v as [| |[]| |s|items|props]; try discriminate.
  - exists "n"%char, "ull". repeat split.
  - exists "t"%char, "rue". repeat split.
  - exists "f"%char, "alse". repeat split.
  - exists quote_mark, (quote_chars s ++ String quote_mark EmptyString).
    repeat split.
  - rewrite text_of_array. eexists "["%char, _. repeat split.
  - rewrite textual_object in H. apply andb_prop in H as [_ H].
    rewrite (text_of_object props H). eexists "{"%char, _. repeat split.
Qed.

Lemma skip_ws_head (c : ascii) (t : string) :
  is_ws c = false -> skip_ws (String c t) = String c t.
Proof. intros H. simpl. now rewrite H. Qed.

Lemma concat_cons (sep x : string) (y : string) (more : list string) :
  String.concat sep (x :: y :: more) = x ++ sep ++ String.concat sep (y :: more).
Proof. reflexivity. Qed.

(** One more element, then the rest of the array. *)
Lemma elements_more (s r r' : string) (v res : Value) (acc : list Value)
    (fv fe : nat) (rest : string) :
  parse_value fv s = Some (v, r) ->
  skip_ws r = String "," r' ->
  parse_elements fe r' (v :: acc) = Some (res, rest) ->
  exists fuel, parse_elements fuel s acc = Some (res, rest).
Proof.
  intros Hv Hs He.
  exists (S (Nat.max (2 * String.length s + 1) (2 * String.length r' + 2))).
  cbn [parse_elements].
  rewrite (value_refuel _ _ _ _ Hv) by lia. rewrite Hs. simpl.
  apply (elements_refuel _ _ _ _ _ He). lia.
Qed.

(** The last element. *)
Lemma elements_last (s r rest : string) (v : Value) (acc : list Value) (fv : nat) :
  parse_value fv s = Some (v, r) ->
  skip_ws r = String "]" rest ->
  exists fuel, parse_elements fuel s acc = Some (JArray (rev (v :: acc)), rest).
Proof.
  intros Hv Hs.
  exists (S (2 * String.length s + 1)).
  cbn [parse_elements].
  rewrite (value_refuel _ _ _ _ Hv) by lia. rewrite Hs. reflexivity.
Qed.

Lemma parse_written_elements (items : list Value) :
  Forall (fun v => textual v = true ->
                   forall rest, exists fuel,
                     parse_value fuel (text_of v ++ rest) = Some (v, rest)) items ->
  forallb textual items = true ->
  items <> [] ->
  forall acc rest, exists fuel,
    parse_elements fuel
      (String.concat "," (map text_of items) ++ String "]" rest) acc
    = Some (JArray (rev acc ++ items), rest).
Proof.
  induction items as [|x items IH]; intros HP Ht Hne acc rest; [congruence|].
  inversion HP as [|? ? Hx HP']; subst.
  simpl in Ht. apply andb_prop in Ht as [Htx Hti].
  destruct items as [|y more].
  - simpl. destruct (Hx Htx (String "]" rest)) as [fv Hv].
    destruct (elements_last _ _ rest x acc fv Hv eq_refl) as [fuel H].
    exists fuel. rewrite H. simpl. reflexivity.
  - change (map text_of (x :: y :: more))
      with (text_of x :: text_of y :: map text_of more).
    rewrite concat_cons, !string_append_assoc.
    destruct (Hx Htx ("," ++ String.concat "," (text_of y :: map text_of more)
                          ++ String "]" rest)) as [fv Hv].
    destruct (IH HP' Hti ltac:(discriminate) (x :: acc) rest) as [fe He].
    destruct (elements_more _ _ _ x _ acc fv fe rest Hv eq_refl He) as [fuel H].
    exists fuel. rewrite H. simpl. rewrite <- app_assoc. reflexivity.
Qed.

Lemma define_fresh (acc : list (string * Value)) (key : string) (v : Value) :
  Forall (fun member => (fst member =? key) = false) acc ->
  define acc key v = (acc ++ [(key, v)])%list.
Proof.
  induction 1 as [|[k x] acc Hk _ IH]; simpl; [reflexivity|].
  simpl in Hk. rewrite Hk, IH. reflexivity.
Qed.

Lemma distinct_app_cons (before after : list string) (key : string) :
  distinct (before ++ key :: after) = true ->
  Forall (fun k => (k =? key) = false) before
  /\ distinct ((before ++ [key]) ++ after) = true.
Proof.
  intros H. split.
  - induction before as [|b before IH]; [constructor|].
    simpl in H. apply andb_prop in H as [Hb Hr].
    constructor; [|apply IH; exact Hr].
    apply negb_true_iff in Hb. rewrite existsb_app in Hb.
    apply orb_false_iff in Hb as [_ Hb]. simpl in Hb.
    apply orb_false_iff in Hb as [Hb _]. exact Hb.
  - now rewrite <- app_assoc.
Qed.

(** One more member, then the rest of the object. *)
Lemma members_more (key r r' rest : string) (v res : Value)
    (acc : list (string * Value)) (fv fm : nat) (tail : string) :
  parse_value fv tail = Some (v, r) ->
  skip_ws r = String "," r' ->
  parse_members fm r' (define acc key v) = Some (res, rest) ->
  exists fuel,
    parse_members fuel
      (String quote_mark (quote_chars key ++ String quote_mark (String ":" tail)))
      acc
    = Some (res, rest).
Proof.
  intros Hv Hs Hm.
  exists (S (Nat.max (2 * String.length tail + 1) (2 * String.length r' + 2))).
  cbn [parse_members]. rewrite skip_ws_head by reflexivity.
  rewrite Ascii.eqb_refl, parse_chars_quoted.
  rewrite skip_ws_head by reflexivity. rewrite Ascii.eqb_refl.
  rewrite (value_refuel _ _ _ _ Hv) by lia. rewrite Hs. simpl.
  apply (members_refuel _ _ _ _ _ Hm). lia.
Qed.

(** The last member. *)
Lemma members_last (key r rest : string) (v : Value)
    (acc : list (string * Value)) (fv : nat) (tail : string) :
  parse_value fv tail = Some (v, r) ->
  skip_ws r = String "}" rest ->
  exists fuel,
    parse_members fuel
      (String quote_mark (quote_chars key ++ String quote_mark (String ":" tail)))
      acc
    = Some (JObject (define acc key v), rest).
Proof.
  intros Hv Hs.
  exists (S (2 * String.length tail + 1)).
  cbn [parse_members]. rewrite skip_ws_head by reflexivity.
  rewrite Ascii.eqb_refl, parse_chars_quoted.
  rewrite skip_ws_head by reflexivity. rewrite Ascii.eqb_refl.
  rewrite (value_refuel _ _ _ _ Hv) by lia. rewrite Hs. reflexivity.
Qed.

Lemma member_text_append (key : string) (v : Value) (tail : string) :
  member_text (key, v) ++ tail
  = String quote_mark
      (quote_chars key ++ String quote_mark (String ":" (text_of v ++ tail))).
Proof.
  unfold member_text, quote. simpl.
  rewrite !string_append_assoc. reflexivity.
Qed.

Lemma parse_written_members (props : list (string * Value)) :
  Forall (fun member =>
            textual (snd member) = true ->
            forall rest, exists fuel,
              parse_value fuel (text_of (snd member) ++ rest)
              = Some (snd member, rest)) props ->
  forallb (fun member => textual (snd member)) props = true ->
  props <> [] ->
  forall acc rest,
    distinct (map fst acc ++ map fst props) = true ->
    exists fuel,
      parse_members fuel
        (String.concat "," (map member_text props) ++ String "}" rest) acc
      = Some (JObject (acc ++ props), rest).
Proof.
  induction props as [|[k x] props IH]; intros HP Ht Hne acc rest Hd; [congruence|].
  inversion HP as [|? ? Hx HP']; subst. simpl in Hx.
  simpl in Ht. apply andb_prop in Ht as [Htx Htp].
  simpl in Hd. apply distinct_app_cons in Hd as [Hfresh Hd].
  assert (Hdef : define acc k x = (acc ++ [(k, x)])%list).
  { apply define_fresh. clear - Hfresh.
    induction acc as [|[a y] acc IH]; [constructor|].
    inversion Hfresh; subst. constructor; auto. }
  destruct props as [|[k' y] more].
  - cbn [map String.concat]. rewrite member_text_append.
    destruct (Hx Htx (String "}" rest)) as [fv Hv].
    destruct (members_last k _ rest x acc fv _ Hv eq_refl) as [fuel H].
    exists fuel. rewrite H, Hdef. reflexivity.
  - change (map member_text ((k, x) :: (k', y) :: more))
      with (member_text (k, x) :: member_text (k', y) :: map member_text more).
    rewrite concat_cons, string_append_assoc, member_text_append.
    rewrite string_append_assoc.
    destruct (Hx Htx ("," ++ String.concat ","
                               (member_text (k', y) :: map member_text more)
                          ++ String "}" rest)) as [fv Hv].
    destruct (IH HP' Htp ltac:(discriminate) (acc ++ [(k, x)])%list rest)
      as [fm Hm].
    { rewrite map_app. exact Hd. }
    rewrite <- Hdef in Hm.
    destruct (members_more k _ _ rest x _ acc fv fm _ Hv eq_refl Hm) as [fuel H].
    exists fuel. rewrite H, Hdef, <- app_assoc. reflexivity.
Qed.

(** Reading what was written for a textual value gives the value back,
    and leaves what follows it. *)
Lemma parse_written (v : Value) :
  textual v = true ->
  forall rest, exists fuel, parse_value fuel (text_of v ++ rest) = Some (v, rest).
Proof.
  induction v as [| |b|repr|s|items IH|props IH] using Value_induction;
    intros Ht rest; try discriminate.
  - exists 1. reflexivity.
  - exists 1. destruct b; reflexivity.
  - exists 1. unfold text_of. simpl. unfold quote. simpl.
    rewrite string_append_assoc. simpl.
    rewrite parse_chars_quoted. reflexivity.
  - rewrite textual_array in Ht. rewrite text_of_array.
    simpl. rewrite string_append_assoc. simpl.
    destruct items as [|x more].
    + exists 1. reflexivity.
    + destruct (parse_written_elements (x :: more) IH Ht ltac:(discriminate) [] rest)
        as [fe He].
      simpl in Ht. apply andb_prop in Ht as [Htx _].
      destruct (text_of_head x Htx) as [c [t [Hc [Hws [Hclose _]]]]].
      assert (Hhead : exists t',
                 String.concat "," (map text_of (x :: more)) ++ String "]" rest
                 = String c t').
      { destruct more; simpl; rewrite Hc; simpl; eauto. }
      destruct Hhead as [t' Hhead]. rewrite Hhead in *.
      exists (S (2 * String.length (String c t') + 2)).
      cbn [parse_value]. rewrite skip_ws_head by reflexivity.
      cbn [Ascii.eqb Bool.eqb]. rewrite (skip_ws_head c t' Hws), Hclose.
      apply (elements_refuel _ _ _ _ _ He). lia.
  - rewrite textual_object in Ht. apply andb_prop in Ht as [Hd Ht].
    rewrite (text_of_object props Ht).
    simpl. rewrite string_append_assoc. simpl.
    destruct props as [|[k x] more].
    + exists 1. reflexivity.
    + destruct (parse_written_members ((k, x) :: more) IH Ht ltac:(discriminate)
                  [] rest Hd) as [fm Hm].
      assert (Hhead : exists t',
                 String.concat "," (map member_text ((k, x) :: more))
                 ++ String "}" rest
                 = String quote_mark t').
      { destruct more; simpl; unfold member_text, quote; simpl; eauto. }
      destruct Hhead as [t' Hhead]. rewrite Hhead in *.
      exists (S (2 * String.length (String quote_mark t') + 2)).
      cbn [parse_value]. rewrite skip_ws_head by reflexivity.
      cbn [Ascii.eqb Bool.eqb].
      rewrite (skip_ws_head quote_mark t' eq_refl).
      change ((quote_mark =? "}")%char) with false. cbv iota.
      apply (members_refuel _ _ _ _ _ Hm). lia.
Qed.

(** [JSON.parse(JSON.stringify(v))] is [v] for every textual value. *)
Lemma parse_stringify (v : Value) :
  textual v = true ->
  exists text, JSON_stringify v = Some text /\ JSON_parse text = Normal v.
Proof.
  intros Ht. exists (text_of v). split.
  - apply stringify_defined, textual_defined, Ht.
  - destruct (parse_written v Ht "") as [fuel H].
    rewrite append_empty in H.
    apply (JSON_parse_accepts fuel _ _ "" H eq_refl).
Qed.

(* ================================================================== *)
(** * The request and the response, end to end *)
(* ================================================================== *)

(** X1.  Whatever string the base64 cell holds, the request issued is a
    POST whose body is JSON text that reads back as the object built on
    lines 81-105: the payload arrives unchanged under
    contents[0].parts[1].inlineData.data, and the type declared beside
    it is image/jpeg whatever image was selected. *)
Theorem X1_request_body_reads_back :
  forall (apiKey : option string) (s : State) (data : string)
         (outcome : FetchOutcome),
    base64ImageData s = JString data ->
    data <> "" ->
    exists text later,
      AppJsx.generateSlideContent apiKey s outcome
      = setStatus st_loading
        :: fetch {| url := AppJsx.apiUrl apiKey;
                    method := "POST";
                    headers := [("Content-Type", "application/json")];
                    body := Some text |}
        :: later
      /\ JSON_parse text = Normal (AppJsx.requestBody (JString data))
      /\ (contents <- get (AppJsx.requestBody (JString data)) "contents" ;;
          content <- get_index contents 0 ;;
          parts <- get content "parts" ;;
          part <- get_index parts 1 ;;
          inlineData <- get part "inlineData" ;;
          mimeType <- get inlineData "mimeType" ;;
          data <- get inlineData "data" ;;
          Normal (mimeType, data))
         = Normal (JString "image/jpeg", JString data).
Proof.
  intros apiKey s data outcome Hb Hd.
  assert (Htruthy : ToBoolean (base64ImageData s) = true).
  { rewrite Hb. simpl. destruct data; [congruence | reflexivity]. }
  destruct (parse_stringify (AppJsx.requestBody (JString data)) eq_refl)
    as [text [Hs Hp]].
  exists text. eexists. split; [|split].
  - rewrite (generate_issued apiKey s outcome Htruthy).
    unfold AppJsx.request. rewrite Hb, Hs. reflexivity.
  - exact Hp.
  - reflexivity.
Qed.

(** The request for the payload AAAA. *)
Lemma X1_request_for_uploaded :
  exists text later,
    AppJsx.generateSlideContent (Some "KEY") uploaded (FetchResolved response_500)
    = setStatus st_loading
      :: fetch {| url := AppJsx.apiUrl (Some "KEY");
                  method := "POST";
                  headers := [("Content-Type", "application/json")];
                  body := Some text |}
      :: later
    /\ JSON_parse text = Normal (AppJsx.requestBody (JString "AAAA"))
    /\ (contents <- get (AppJsx.requestBody (JString "AAAA")) "contents" ;;
        content <- get_index contents 0 ;;
        parts <- get content "parts" ;;
        part <- get_index parts 1 ;;
        inlineData <- get part "inlineData" ;;
        mimeType <- get inlineData "mimeType" ;;
        data <- get inlineData "data" ;;
        Normal (mimeType, data))
       = Normal (JString "image/jpeg", JString "AAAA").
Proof.
  apply (X1_request_body_reads_back (Some "KEY") uploaded "AAAA"
           (FetchResolved response_500) eq_refl).
  discriminate.
Defined.

(** X2.  Once a request has been issued it ends in success or in error,
    never in idle or loading, and it leaves the preview, the payload and
    the toast alone.  It ends in success, with the error message as it
    was, only through a response in the range 200-299 whose envelope
    leads to a truthy part whose text [JSON.parse] accepts, and what is
    stored is what [JSON.parse] returned.  In every other case it ends
    in error, with the slide content as it was and the thrown message
    after the fixed prefix. *)
Theorem X2_request_ends_in_success_or_error :
  forall (apiKey : option string) (s : State) (outcome : FetchOutcome),
    ToBoolean (base64ImageData s) = true ->
    let s' := run s (AppJsx.generateSlideContent apiKey s outcome) in
    image s' = image s
    /\ base64ImageData s' = base64ImageData s
    /\ showToast s' = showToast s
    /\ ((status s' = st_success
         /\ error s' = error s
         /\ exists response result part text,
              outcome = FetchResolved response
              /\ ok response = true
              /\ json response = Normal result
              /\ AppJsx.content_part result = Normal part
              /\ ToBoolean part = true
              /\ get part "text" = Normal text
              /\ JSON.parse text = Normal (slideContent s'))
        \/ (status s' = st_error
            /\ slideContent s' = slideContent s
            /\ exists e,
                 AppJsx.try_block outcome = Throw e
                 /\ error s' = "An error occurred: " ++ message e)).
Proof.
  intros apiKey s outcome Hb s'. subst s'.
  destruct (AppJsx.try_block outcome) as [parsedJson|e] eqn:Htry.
  - rewrite (generate_parsed apiKey s outcome parsedJson Hb Htry). simpl.
    repeat split. left. repeat split.
    unfold AppJsx.try_block in Htry.
    destruct outcome as [e|response]; [discriminate|].
    destruct (ok response) eqn:Hok; [|discriminate]. simpl in Htry.
    destruct (json response) as [result|e] eqn:Hj; [|discriminate]. simpl in Htry.
    destruct (AppJsx.content_part result) as [part|e] eqn:Hc; [|discriminate].
    simpl in Htry.
    destruct (ToBoolean part) eqn:Hp; [|discriminate].
    destruct (jsonText_of_part result part Hc Hp) as [text [Hg Ht]].
    rewrite Ht in Htry. simpl in Htry.
    exists response, result, part, text. repeat split; try assumption.
    destruct (JSON.parse text); [|discriminate]. simpl in Htry. exact Htry.
  - rewrite (generate_caught apiKey s outcome e Hb Htry). simpl.
    repeat split. right. repeat split. exists e. split; reflexivity.
Qed.

(** A call that fails before any response. *)
Lemma X2_network_failure :
  let s' := run uploaded
              (AppJsx.generateSlideContent None uploaded
                 (FetchRejected (TypeError "Failed to fetch"))) in
  status s' = st_error
  /\ slideContent s' = JNull
  /\ error s' = "An error occurred: Failed to fetch".
Proof.
  destruct (X2_request_ends_in_success_or_error None uploaded
              (FetchRejected (TypeError "Failed to fetch")) eq_refl)
    as [_ [_ [_ [[H _]|[H1 [H2 [e [He H3]]]]]]]].
  - discriminate H.
  - injection He as <-. exact (conj H1 (conj H2 H3)).
Defined.

(** X3.  A slide made of strings, arrays and objects that the endpoint
    sends as the JSON text of the part is stored exactly as sent, and
    the request ends in success. *)
Theorem X3_slide_stored_as_sent :
  forall (apiKey : option string) (s : State) (content : Value) (text : string),
    ToBoolean (base64ImageData s) = true ->
    textual content = true ->
    JSON_stringify content = Some text ->
    let s' := run s (AppJsx.generateSlideContent apiKey s
                       (FetchResolved (response_with text))) in
    status s' = st_success
    /\ slideContent s' = content
    /\ error s' = error s.
Proof.
  intros apiKey s content text Hb Ht Hs s'. subst s'.
  destruct (parse_stringify content Ht) as [text' [Hs' Hp]].
  rewrite Hs in Hs'. injection Hs' as <-.
  rewrite (generate_parsed apiKey s _ content Hb).
  - repeat split.
  - change (AppJsx.try_block (FetchResolved (response_with text)))
      with (parsedJson <- JSON_parse text ;; Normal parsedJson).
    rewrite Hp. reflexivity.
Qed.

(** The first scenario's slide, sent as JSON. *)
Lemma X3_q1_results_stored_as_sent :
  let s' := run uploaded (AppJsx.generateSlideContent None uploaded
                            (FetchResolved (response_with q1_results_text))) in
  status s' = st_success
  /\ slideContent s' = q1_results
  /\ error s' = error uploaded.
Proof.
  exact (X3_slide_stored_as_sent None uploaded q1_results q1_results_text
           eq_refl eq_refl eq_refl).
Defined.

(* ================================================================== *)
(** * Selecting an image *)
(* ================================================================== *)

Lemma free_of_split (c : ascii) (s : string) :
  free_of c s = true -> split c s = [s].
Proof.
  induction s as [|x s IH]; simpl; [reflexivity|].
  intros H. apply andb_prop in H as [Hx Hs].
  apply negb_true_iff in Hx. rewrite Hx, (IH Hs). reflexivity.
Qed.

Lemma split_not_empty (c : ascii) (s : string) : split c s <> [].
Proof.
  destruct s as [|x s]; simpl; [discriminate|].
  destruct (Ascii.eqb x c); [discriminate|].
  destruct (split c s); discriminate.
Qed.

(** Splitting at the first separator. *)
Lemma split_first (c : ascii) (a b : string) :
  free_of c a = true -> split c (a ++ String c b) = a :: split c b.
Proof.
  induction a as [|x a IH]; simpl.
  - intros _. rewrite Ascii.eqb_refl. reflexivity.
  - intros H. apply andb_prop in H as [Hx Ha].
    apply negb_true_iff in Hx. rewrite Hx, (IH Ha). reflexivity.
Qed.

(** The state after an image has been read. *)
Lemma intake_loaded (file : File) (result : string) (s : State) :
  run s (AppJsx.handleImageUpload (Some file) (Loaded result))
  = {| image := JString result;
       base64ImageData := item (split "," result) 1;
       slideContent := JNull; status := st_idle; error := "";
       showToast := showToast s |}.
Proof. reflexivity. Qed.

Lemma generate_keeps_payload (apiKey : option string) (closed s : State)
    (outcome : FetchOutcome) :
  base64ImageData (run s (AppJsx.generateSlideContent apiKey closed outcome))
  = base64ImageData s.
Proof.
  unfold AppJsx.generateSlideContent.
  destruct (ToBoolean (base64ImageData closed)); simpl; [|reflexivity].
  destruct (AppJsx.try_block outcome); reflexivity.
Qed.

(** The cell [base64ImageData] only ever holds [null], [undefined] or a
    string, the values [same_payload] compares: the only call of its
    setter is on line 47. *)
Lemma payload_cell_values (apiKey : option string) (file : option File)
    (reader : ReaderOutcome) (outcome : FetchOutcome) (s : State) :
  Session.same_payload (base64ImageData s) (base64ImageData s) = true ->
  let s' := Session.select apiKey file reader outcome s in
  Session.same_payload (base64ImageData s') (base64ImageData s') = true.
Proof.
  intros H s'. subst s'. unfold Session.select, Session.select_trace.
  rewrite run_app.
  assert (H1 : Session.same_payload
                 (base64ImageData (run s (AppJsx.handleImageUpload file reader)))
                 (base64ImageData (run s (AppJsx.handleImageUpload file reader)))
               = true).
  { destruct file as [file|]; [|exact H].
    destruct reader as [result|]; [|exact H].
    rewrite intake_loaded. simpl. unfold item.
    destruct (nth_error (split "," result) 1); simpl;
      [apply String.eqb_refl | reflexivity]. }
  destruct (Session.requests s (run s (AppJsx.handleImageUpload file reader))).
  - rewrite generate_keeps_payload. exact H1.
  - exact H1.
Qed.

(** No request is part of [handleImageUpload] itself. *)
Lemma intake_without_fetch (file : option File) (reader : ReaderOutcome)
    (request : Request) :
  ~ In (fetch request) (AppJsx.handleImageUpload file reader).
Proof.
  destruct file as [file|]; [|exact (fun H => H)].
  destruct reader; simpl; intuition discriminate.
Qed.

(** A selection issues a request exactly when the effect is run and
    finds a payload. *)
Lemma select_fetches (apiKey : option string) (file : option File)
    (reader : ReaderOutcome) (outcome : FetchOutcome) (s : State) :
  (exists request,
      In (fetch request) (Session.select_trace apiKey file reader outcome s))
  <-> Session.requests s (run s (AppJsx.handleImageUpload file reader)) = true.
Proof.
  unfold Session.select_trace.
  destruct (Session.requests s (run s (AppJsx.handleImageUpload file reader)))
    eqn:Hreq.
  - split; [reflexivity|]. intros _.
    apply andb_prop in Hreq. destruct Hreq as [_ Hb].
    rewrite (generate_issued apiKey _ outcome Hb).
    eexists. apply in_or_app. right. simpl. right. left. reflexivity.
  - split; [|discriminate]. intros [request H]. rewrite app_nil_r in H.
    destruct (intake_without_fetch file reader request H).
Qed.

(** X4.  The payload is read off the data URL by splitting at commas
    and taking the second piece.  For a data URL made of a comma-free
    header, a comma and a comma-free payload, the cell holds the
    payload and the preview shows the whole URL; the effect finds a
    payload exactly when it is not empty, and the selection issues a
    request exactly when the payload is not empty and is not the one
    the cell held before.  For a result without any comma the cell
    holds [undefined] and no request is issued. *)
Theorem X4_payload_read_off_data_url :
  (forall (file : File) (header payload : string) (s : State),
      free_of "," header = true ->
      free_of "," payload = true ->
      let result := header ++ "," ++ payload in
      let s' := run s (AppJsx.handleImageUpload (Some file) (Loaded result)) in
      base64ImageData s' = JString payload
      /\ image s' = JString result
      /\ Components.preview s' = Components.PreviewImage (JString result)
      /\ AppJsx.imageEffect s' = negb (payload =? "")
      /\ Session.requests s s'
         = negb (payload =? "")
           && negb (Session.same_payload (base64ImageData s) (JString payload))
      /\ forall (apiKey : option string) (outcome : FetchOutcome),
           (exists request,
               In (fetch request)
                  (Session.select_trace apiKey (Some file) (Loaded result)
                     outcome s))
           <-> payload <> ""
               /\ Session.same_payload (base64ImageData s) (JString payload)
                  = false)
  /\ (forall (file : File) (result : string) (s : State),
         free_of "," result = true ->
         let s' := run s (AppJsx.handleImageUpload (Some file) (Loaded result)) in
         base64ImageData s' = JUndefined
         /\ AppJsx.imageEffect s' = false
         /\ Session.requests s s' = false
         /\ forall (apiKey : option string) (outcome : FetchOutcome)
                   (request : Request),
              ~ In (fetch request)
                   (Session.select_trace apiKey (Some file) (Loaded result)
                      outcome s)).
Proof.
  split.
  - intros file header payload s Hh Hp result s'.
    assert (Hs' : s' = {| image := JString result;
                          base64ImageData := JString payload;
                          slideContent := JNull; status := st_idle;
                          error := ""; showToast := showToast s |}).
    { subst s' result. rewrite intake_loaded. simpl.
      rewrite (split_first "," header payload Hh), (free_of_split "," payload Hp).
      reflexivity. }
    assert (Hreq : Session.requests s s'
                   = negb (payload =? "")
                     && negb (Session.same_payload (base64ImageData s)
                                (JString payload))).
    { rewrite Hs'. unfold Session.requests, AppJsx.imageEffect. simpl.
      destruct payload; simpl; [apply andb_false_r | apply andb_true_r]. }
    split; [rewrite Hs'; reflexivity|].
    split; [rewrite Hs'; reflexivity|].
    split; [rewrite Hs'; unfold Components.preview; simpl;
            subst result; destruct header; reflexivity|].
    split; [rewrite Hs'; unfold AppJsx.imageEffect; simpl;
            destruct payload; reflexivity|].
    split; [exact Hreq|].
    intros apiKey outcome.
    rewrite (select_fetches apiKey (Some file) (Loaded result) outcome s).
    fold s'. rewrite Hreq.
    destruct (Session.same_payload (base64ImageData s) (JString payload));
      destruct payload; simpl; intuition congruence.
  - intros file result s Hr s'.
    assert (Hs' : s' = {| image := JString result;
                          base64ImageData := JUndefined;
                          slideContent := JNull; status := st_idle;
                          error := ""; showToast := showToast s |}).
    { subst s'. rewrite intake_loaded, (free_of_split "," result Hr).
      reflexivity. }
    assert (Hreq : Session.requests s s' = false).
    { rewrite Hs'. unfold Session.requests, AppJsx.imageEffect. simpl.
      apply andb_false_r. }
    split; [rewrite Hs'; reflexivity|].
    split; [rewrite Hs'; reflexivity|].
    split; [exact Hreq|].
    intros apiKey outcome request H.
    assert (Hex : exists request,
               In (fetch request)
                  (Session.select_trace apiKey (Some file) (Loaded result)
                     outcome s)) by (exists request; exact H).
    apply select_fetches in Hex. fold s' in Hex. congruence.
Qed.

(** A PNG read as a data URL, first into an empty cell, then into the
    cell that holds its payload already; and a result that is only a
    scheme. *)
Lemma X4_png_and_bare_scheme :
  (let s' := run initial
               (AppJsx.handleImageUpload (Some (mkFile "chart.png"))
                  (Loaded ("data:image/png;base64" ++ "," ++ "iVBORw0KGgo="))) in
   base64ImageData s' = JString "iVBORw0KGgo="
   /\ Session.requests initial s' = true)
  /\ (let s := showing q1_results in
      let s' := run s
                  (AppJsx.handleImageUpload (Some (mkFile "chart.png"))
                     (Loaded ("data:image/png;base64" ++ "," ++ "AAAA"))) in
      AppJsx.imageEffect s' = true
      /\ Session.requests s s' = false)
  /\ (let s' := run initial
                  (AppJsx.handleImageUpload (Some (mkFile "empty.png"))
                     (Loaded "data:")) in
      base64ImageData s' = JUndefined
      /\ Session.requests initial s' = false).
Proof.
  split; [|split].
  - destruct (proj1 X4_payload_read_off_data_url (mkFile "chart.png")
                "data:image/png;base64" "iVBORw0KGgo=" initial eq_refl eq_refl)
      as [H1 [_ [_ [_ [H2 _]]]]].
    exact (conj H1 H2).
  - destruct (proj1 X4_payload_read_off_data_url (mkFile "chart.png")
                "data:image/png;base64" "AAAA" (showing q1_results)
                eq_refl eq_refl)
      as [_ [_ [_ [H1 [H2 _]]]]].
    exact (conj H1 H2).
  - destruct (proj2 X4_payload_read_off_data_url (mkFile "empty.png") "data:"
                initial eq_refl)
      as [H1 [_ [H2 _]]].
    exact (conj H1 H2).
Defined.

Lemma count_fetch_generate (apiKey : option string) (s : State)
    (outcome : FetchOutcome) :
  ToBoolean (base64ImageData s) = true ->
  exists later,
    AppJsx.generateSlideContent apiKey s outcome
    = setStatus st_loading
      :: fetch (AppJsx.request apiKey (base64ImageData s)) :: later
    /\ (forall request, ~ In (fetch request) later).
Proof.
  intros Hb. rewrite (generate_issued apiKey s outcome Hb).
  eexists. split; [reflexivity|].
  intros request. destruct (AppJsx.try_block outcome); simpl; intuition discriminate.
Qed.

(** X5.  When the image read carries a non-empty payload that differs
    from the one in the cell, the selection issues one request, for
    that payload, and ends with the new preview and either the parsed
    response as slide content, with status success and an empty error
    message, or an error message, shown in the error view, and no
    slide: nothing of the previous slide or of a previous error is
    left.  In the first case what is shown depends on the response: a
    falsy one leaves the panel without any view, a truthy one is shown
    in the success view when [SuccessContent] can render it, and
    otherwise the render throws and nothing is shown. *)
Theorem X5_new_image_replaces_slide_and_error :
  forall (apiKey : option string) (file : File) (result payload : string)
         (outcome : FetchOutcome) (s : State),
    item (split "," result) 1 = JString payload ->
    payload <> "" ->
    Session.same_payload (base64ImageData s) (JString payload) = false ->
    let s' := Session.select apiKey (Some file) (Loaded result) outcome s in
    (exists later,
        Session.select_trace apiKey (Some file) (Loaded result) outcome s
        = (AppJsx.handleImageUpload (Some file) (Loaded result)
           ++ setStatus st_loading
              :: fetch (AppJsx.request apiKey (JString payload)) :: later)%list
        /\ forall request, ~ In (fetch request) later)
    /\ image s' = JString result
    /\ base64ImageData s' = JString payload
    /\ showToast s' = showToast s
    /\ ((status s' = st_success /\ error s' = ""
         /\ AppJsx.try_block outcome = Normal (slideContent s')
         /\ (ToBoolean (slideContent s') = false ->
             Components.rendered s' = Normal (falsy_child (slideContent s'))
             /\ filter is_view (falsy_child (slideContent s')) = [])
         /\ (ToBoolean (slideContent s') = true ->
             match Components.SuccessContent_mount (slideContent s') with
             | Normal _ =>
                 Components.rendered s'
                 = Normal [Component (SuccessContent (slideContent s'))]
             | Throw e => Components.rendered s' = Throw e
             end))
        \/ (status s' = st_error /\ slideContent s' = JNull
            /\ Components.rendered s' = Normal [Component (ErrorMessage (error s'))]
            /\ exists e, AppJsx.try_block outcome = Throw e
                         /\ error s' = "An error occurred: " ++ message e)).
Proof.
  intros apiKey file result payload outcome s Hitem Hne Hdiff s'.
  set (s1 := run s (AppJsx.handleImageUpload (Some file) (Loaded result))).
  assert (Hs1 : s1 = {| image := JString result;
                        base64ImageData := JString payload;
                        slideContent := JNull; status := st_idle; error := "";
                        showToast := showToast s |}).
  { subst s1. rewrite intake_loaded, Hitem. reflexivity. }
  assert (Htruthy : ToBoolean (base64ImageData s1) = true).
  { rewrite Hs1. simpl. destruct payload; [congruence | reflexivity]. }
  assert (Hreq : Session.requests s s1 = true).
  { unfold Session.requests, AppJsx.imageEffect. rewrite Htruthy.
    rewrite Hs1 at 1. simpl. rewrite Hdiff. reflexivity. }
  assert (Htrace : Session.select_trace apiKey (Some file) (Loaded result) outcome s
                   = (AppJsx.handleImageUpload (Some file) (Loaded result)
                      ++ AppJsx.generateSlideContent apiKey s1 outcome)%list).
  { unfold Session.select_trace. fold s1. rewrite Hreq. reflexivity. }
  split.
  - rewrite Htrace.
    destruct (count_fetch_generate apiKey s1 outcome Htruthy) as [later [Hg Hn]].
    exists later. rewrite Hg. split; [|exact Hn].
    rewrite Hs1. reflexivity.
  - subst s'. unfold Session.select. rewrite Htrace, run_app. fold s1.
    destruct (AppJsx.try_block outcome) as [parsedJson|e] eqn:Htry.
    + rewrite (generate_parsed apiKey s1 outcome parsedJson Htruthy Htry).
      rewrite Hs1. simpl.
      split; [reflexivity|]. split; [reflexivity|]. split; [reflexivity|].
      left.
      split; [reflexivity|]. split; [reflexivity|]. split; [reflexivity|].
      split.
      * intros Hc. rewrite rendered_success by reflexivity. simpl. rewrite Hc.
        split; [reflexivity | destruct parsedJson; reflexivity].
      * intros Hc. rewrite rendered_success by reflexivity. simpl. rewrite Hc.
        destruct (Components.SuccessContent_mount parsedJson); reflexivity.
    + rewrite (generate_caught apiKey s1 outcome e Htruthy Htry).
      rewrite Hs1. simpl.
      split; [reflexivity|]. split; [reflexivity|]. split; [reflexivity|].
      right.
      split; [reflexivity|]. split; [reflexivity|]. split; [reflexivity|].
      exists e. split; reflexivity.
Qed.

(** A new image selected while an old slide and an old error are in
    the state, the endpoint answering with status 500. *)
Lemma X5_new_image_after_old_slide :
  let old := {| image := JString "data:image/png;base64,AAAA";
                base64ImageData := JString "AAAA";
                slideContent := q1_results; status := st_error;
                error := "Could not copy text to clipboard.";
                showToast := false |} in
  let s' := Session.select None (Some (mkFile "next.png"))
              (Loaded "data:image/png;base64,BBBB")
              (FetchResolved response_500) old in
  image s' = JString "data:image/png;base64,BBBB"
  /\ base64ImageData s' = JString "BBBB"
  /\ status s' = st_error
  /\ slideContent s' = JNull
  /\ error s' = "An error occurred: API request failed with status 500"
  /\ Components.rendered s' = Normal [Component (ErrorMessage (error s'))].
Proof.
  intros old.
  destruct (X5_new_image_replaces_slide_and_error None (mkFile "next.png")
              "data:image/png;base64,BBBB" "BBBB" (FetchResolved response_500)
              old eq_refl ltac:(discriminate) eq_refl)
    as [_ [H1 [H2 [_ [[H _]|[H3 [H4 [H6 [e [He H5]]]]]]]]]].
  - discriminate H.
  - injection He as <-.
    exact (conj H1 (conj H2 (conj H3 (conj H4 (conj H5 H6))))).
Defined.

(** X6.  When the payload read is the one already in the cell, or is
    [undefined] or empty, the selection issues no request: it does what
    [handleImageUpload] does and nothing more, and leaves the component
    idle, without slide, on the placeholder, with the Copy button
    disabled.  In particular selecting again the image whose slide is
    shown clears the slide and does not generate it again. *)
Theorem X6_same_or_empty_payload_issues_no_request :
  forall (apiKey : option string) (file : File) (result : string)
         (outcome : FetchOutcome) (s : State),
    Session.same_payload (base64ImageData s) (item (split "," result) 1) = true
    \/ ToBoolean (item (split "," result) 1) = false ->
    let s' := Session.select apiKey (Some file) (Loaded result) outcome s in
    Session.select_trace apiKey (Some file) (Loaded result) outcome s
    = AppJsx.handleImageUpload (Some file) (Loaded result)
    /\ (forall request,
           ~ In (fetch request)
                (Session.select_trace apiKey (Some file) (Loaded result) outcome s))
    /\ s' = {| image := JString result;
               base64ImageData := item (split "," result) 1;
               slideContent := JNull; status := st_idle; error := "";
               showToast := showToast s |}
    /\ AppJsx.panel s' = [Component Placeholder]
    /\ AppJsx.copyDisabled s' = true.
Proof.
  intros apiKey file result outcome s H s'.
  assert (Hreq : Session.requests s
                   (run s (AppJsx.handleImageUpload (Some file) (Loaded result)))
                 = false).
  { unfold Session.requests, AppJsx.imageEffect. rewrite intake_loaded. simpl.
    destruct H as [H|H]; rewrite H; [reflexivity | apply andb_false_r]. }
  assert (Htrace : Session.select_trace apiKey (Some file) (Loaded result) outcome s
                   = AppJsx.handleImageUpload (Some file) (Loaded result)).
  { unfold Session.select_trace. rewrite Hreq. apply app_nil_r. }
  split; [exact Htrace|]. split.
  - intros request. rewrite Htrace. simpl. intuition discriminate.
  - subst s'. unfold Session.select. rewrite Htrace, intake_loaded.
    repeat split.
Qed.

(** The image whose slide is shown, selected once more. *)
Lemma X6_same_image_again :
  let s' := Session.select None (Some (mkFile "chart.png"))
              (Loaded "data:image/png;base64,AAAA")
              (FetchResolved (response_with q1_results_text))
              (showing q1_results) in
  status s' = st_idle
  /\ slideContent s' = JNull
  /\ AppJsx.panel s' = [Component Placeholder].
Proof.
  destruct (X6_same_or_empty_payload_issues_no_request None (mkFile "chart.png")
              "data:image/png;base64,AAAA"
              (FetchResolved (response_with q1_results_text))
              (showing q1_results) (or_introl eq_refl))
    as [_ [_ [Hs [Hp _]]]].
  split; [|split].
  - rewrite Hs. reflexivity.
  - rewrite Hs. reflexivity.
  - exact Hp.
Defined.

(* ================================================================== *)
(** * Showing and exporting a slide *)
(* ================================================================== *)





(** X8.  The request accepts what [SuccessContent] cannot show.  When
    the text of the part parses to a truthy value whose [bulletPoints]
    is not an array (the object without fields, a number, a string),
    the request ends with status success and that value as slide
    content; the panel then holds the success view, whose render throws
    a TypeError at [content.bulletPoints.map]: with no error boundary
    around it the component is unmounted, and nothing is shown, neither
    the slide nor an error message. *)
Theorem X8_accepted_slide_without_bullet_array_is_not_rendered :
  forall (apiKey : option string) (s : State) (response : Response)
         (result part text content : Value),
    ToBoolean (base64ImageData s) = true ->
    ok response = true ->
    json response = Normal result ->
    AppJsx.content_part result = Normal part ->
    ToBoolean part = true ->
    get part "text" = Normal text ->
    JSON.parse text = Normal content ->
    ToBoolean content = true ->
    (forall points, get content "bulletPoints" <> Normal (JArray points)) ->
    let s' := run s (AppJsx.generateSlideContent apiKey s (FetchResolved response)) in
    status s' = st_success
    /\ slideContent s' = content
    /\ error s' = error s
    /\ AppJsx.panel s' = [Component (SuccessContent content)]
    /\ exists e, Components.SuccessContent_render content = Throw e
                 /\ Components.rendered s' = Throw e
                 /\ name e = "TypeError".
Proof.
  intros apiKey s response result part text content
         Hb Hok Hj Hc Hp Hg Hparse Htruthy Hnot s'.
  destruct (jsonText_of_part result part Hc Hp) as [text' [Hg' Ht]].
  assert (text' = text) by congruence. subst text'.
  assert (Htry : AppJsx.try_block (FetchResolved response) = Normal content).
  { unfold AppJsx.try_block. rewrite Hok, Hj. simpl. rewrite Hc. simpl.
    rewrite Hp, Ht. simpl. rewrite Hparse. reflexivity. }
  assert (Hs' : s' = {| image := image s; base64ImageData := base64ImageData s;
                        slideContent := content; status := st_success;
                        error := error s; showToast := showToast s |}).
  { subst s'. apply (generate_parsed apiKey s _ content Hb Htry). }
  split; [rewrite Hs'; reflexivity|].
  split; [rewrite Hs'; reflexivity|].
  split; [rewrite Hs'; reflexivity|].
  split.
  { rewrite Hs'. unfold AppJsx.panel. simpl. rewrite Htruthy. reflexivity. }
  rewrite (rendered_success s') by (rewrite Hs'; reflexivity).
  replace (slideContent s') with content by (rewrite Hs'; reflexivity).
  rewrite Htruthy.
  destruct (get_not_nullish content "title" (truthy_not_nullish _ Htruthy))
    as [title Et].
  destruct (get_not_nullish content "bulletPoints"
              (truthy_not_nullish _ Htruthy)) as [bulletPoints Eb].
  unfold Components.SuccessContent_mount, Components.SuccessContent_render.
  rewrite Et, Eb. simpl.
  destruct bulletPoints as [| | | | |points|]; simpl;
    try (eexists; split; [reflexivity | split; reflexivity]).
  destruct (Hnot points Eb).
Qed.

(** The endpoint answers with the text of the object without fields. *)
Lemma X8_empty_object_accepted_not_rendered :
  let s' := run uploaded
              (AppJsx.generateSlideContent None uploaded
                 (FetchResolved (response_with "{}"))) in
  status s' = st_success
  /\ slideContent s' = JObject []
  /\ error s' = ""
  /\ AppJsx.panel s' = [Component (SuccessContent (JObject []))]
  /\ exists e, Components.SuccessContent_render (JObject []) = Throw e
               /\ Components.rendered s' = Throw e
               /\ name e = "TypeError".
Proof.
  exact (X8_accepted_slide_without_bullet_array_is_not_rendered None uploaded
           (response_with "{}") (envelope (JString "{}"))
           (JObject [("text", JString "{}")]) (JString "{}") (JObject [])
           eq_refl eq_refl eq_refl eq_refl eq_refl eq_refl eq_refl eq_refl
           ltac:(discriminate)).
Defined.

Lemma advance_frame (now : N) (rt : Runtime.Runtime) :
  let rt' := AppJsx_advance now rt in
  image (Runtime.state rt') = image (Runtime.state rt)
  /\ base64ImageData (Runtime.state rt') = base64ImageData (Runtime.state rt)
  /\ slideContent (Runtime.state rt') = slideContent (Runtime.state rt)
  /\ status (Runtime.state rt') = status (Runtime.state rt)
  /\ error (Runtime.state rt') = error (Runtime.state rt).
Proof.
  unfold AppJsx_advance, Runtime.advance.
  destruct (Runtime.timer rt) as [due|]; [|repeat split].
  destruct (due <=? now)%N; repeat split.
Qed.

Lemma click_frame (now : N) (outcome : ClipboardOutcome) (rt : Runtime.Runtime) :
  let rt' := AppJsx_click now outcome rt in
  image (Runtime.state rt') = image (Runtime.state rt)
  /\ base64ImageData (Runtime.state rt') = base64ImageData (Runtime.state rt)
  /\ slideContent (Runtime.state rt') = slideContent (Runtime.state rt)
  /\ (status (Runtime.state rt) <> st_success ->
      status (Runtime.state rt') = status (Runtime.state rt)
      /\ error (Runtime.state rt') = error (Runtime.state rt)).
Proof.
  unfold AppJsx_click, Runtime.click. fold (AppJsx_advance now rt).
  destruct (advance_frame now rt) as [H1 [H2 [H3 [H4 H5]]]].
  set (rt1 := AppJsx_advance now rt) in *.
  unfold AppJsx.copyDisabled. rewrite H4.
  destruct (status (Runtime.state rt)) eqn:Hst; simpl;
    try (repeat split; assumption).
  unfold AppJsx.copyContentToClipboard.
  destruct (ToBoolean (slideContent (Runtime.state rt1))); simpl.
  - destruct (AppJsx.textToCopy (slideContent (Runtime.state rt1))) as [text|e];
      simpl.
    + destruct outcome; simpl; repeat split; try assumption; congruence.
    + repeat split; try assumption; congruence.
  - repeat split; try assumption; congruence.
Qed.

(** X9.  No sequence of clicks on Copy, however the clipboard calls
    settle, changes the preview, the payload or the stored slide.  Once
    the status is not success the button is disabled and the clicks
    change neither the status nor the error message: after a failed
    export the slide is still stored, but no click brings it back. *)
Theorem X9_clicks_keep_slide_and_cannot_leave_error :
  forall (events : list (N * ClipboardOutcome)) (rt : Runtime.Runtime),
    let rt' := Session.replay events rt in
    image (Runtime.state rt') = image (Runtime.state rt)
    /\ base64ImageData (Runtime.state rt') = base64ImageData (Runtime.state rt)
    /\ slideContent (Runtime.state rt') = slideContent (Runtime.state rt)
    /\ (status (Runtime.state rt) <> st_success ->
        status (Runtime.state rt') = status (Runtime.state rt)
        /\ error (Runtime.state rt') = error (Runtime.state rt)
        /\ AppJsx.copyDisabled (Runtime.state rt') = true).
Proof.
  induction events as [|[now outcome] events IH]; intros rt; simpl.
  - split; [reflexivity|]. split; [reflexivity|]. split; [reflexivity|].
    intros Hne. split; [reflexivity|]. split; [reflexivity|].
    unfold AppJsx.copyDisabled.
    destruct (status (Runtime.state rt)); simpl; congruence.
  - destruct (click_frame now outcome rt) as [H1 [H2 [H3 H4]]].
    destruct (IH (AppJsx_click now outcome rt)) as [G1 [G2 [G3 G4]]].
    rewrite G1, G2, G3.
    split; [assumption|]. split; [assumption|]. split; [assumption|].
    intros Hne. destruct (H4 Hne) as [Hs He].
    destruct G4 as [K1 [K2 K3]]; [congruence|].
    split; [congruence|]. split; [congruence | exact K3].
Qed.

(** A rejected export of the first scenario's slide, then two clicks. *)
Lemma X9_no_retry_after_failed_export :
  let failed := AppJsx_click 0
                  (WriteRejected (mkError "NotAllowedError" "Write permission denied."))
                  (live q1_results) in
  let after := Session.replay [(100, WriteResolved); (200, WriteResolved)]%N failed in
  status (Runtime.state after) = st_error
  /\ slideContent (Runtime.state after) = q1_results
  /\ AppJsx.copyDisabled (Runtime.state after) = true.
Proof.
  intros failed after.
  destruct (X9_clicks_keep_slide_and_cannot_leave_error
              [(100, WriteResolved); (200, WriteResolved)]%N failed)
    as [_ [_ [H3 H4]]].
  destruct (H4 ltac:(discriminate)) as [K1 [_ K3]].
  exact (conj K1 (conj H3 K3)).
Defined.

(* ================================================================== *)
(** * The toast over any sequence of clicks *)
(* ================================================================== *)

Lemma replay_app (first second : list (N * ClipboardOutcome))
    (rt : Runtime.Runtime) :
  Session.replay (first ++ second) rt
  = Session.replay second (Session.replay first rt).
Proof.
  revert rt. induction first as [|[now outcome] first IH]; intros rt; simpl;
    [reflexivity | apply IH].
Qed.

Lemma pending_more (start : Runtime.Runtime)
    (done more : list (N * ClipboardOutcome)) (rt : Runtime.Runtime) :
  Session.pending start done rt -> Session.pending start (done ++ more) rt.
Proof.
  unfold Session.pending. destruct (Runtime.timer rt) as [due|]; [|auto].
  intros [H [before [now [after [Hd [Hh Hdue]]]]]]. split; [exact H|].
  exists before, now, (after ++ more)%list.
  split; [|split; [exact Hh | exact Hdue]].
  rewrite Hd, <- app_assoc. reflexivity.
Qed.

Lemma advance_pending (start : Runtime.Runtime)
    (done : list (N * ClipboardOutcome)) (now : N) (rt : Runtime.Runtime) :
  Session.pending start done rt ->
  Session.pending start done (AppJsx_advance now rt).
Proof.
  unfold AppJsx_advance, Runtime.advance.
  destruct (Runtime.timer rt) as [due|] eqn:Et; [|auto].
  destruct (due <=? now)%N; [|auto].
  unfold Session.pending. rewrite Et. intros [H _].
  unfold Runtime.commit. simpl. rewrite H. reflexivity.
Qed.

Lemma commit_toast_kept (start : Runtime.Runtime)
    (done : list (N * ClipboardOutcome)) (now : N)
    (trace : list Effect) (rt : Runtime.Runtime) :
  showToast (run (Runtime.state rt) trace) = showToast (Runtime.state rt) ->
  Session.pending start done rt ->
  Session.pending start done
    (Runtime.commit AppJsx.toastEffect now trace rt).
Proof.
  intros Hsame. unfold Session.pending, Runtime.commit. simpl.
  rewrite Hsame, Bool.eqb_reflx. auto.
Qed.

(** A click keeps the toast and its timer together; the click that
    shows the toast is a successful export that found it hidden. *)
Lemma click_pending (start : Runtime.Runtime)
    (done : list (N * ClipboardOutcome)) (now : N)
    (outcome : ClipboardOutcome) :
  Session.pending start done (Session.replay done start) ->
  Session.pending start (done ++ [(now, outcome)])
    (AppJsx_click now outcome (Session.replay done start)).
Proof.
  set (rt := Session.replay done start).
  intros H. apply (advance_pending start done now) in H.
  unfold AppJsx_click, Runtime.click. fold (AppJsx_advance now rt).
  set (rt1 := AppJsx_advance now rt) in *.
  destruct (AppJsx.copyDisabled (Runtime.state rt1)); [now apply pending_more|].
  unfold AppJsx.copyContentToClipboard.
  destruct (ToBoolean (slideContent (Runtime.state rt1))); simpl.
  - destruct (AppJsx.textToCopy (slideContent (Runtime.state rt1))) as [text|e];
      simpl; [|now apply pending_more].
    destruct outcome as [|err].
    + unfold Session.pending in *. unfold Runtime.commit. simpl.
      destruct (Runtime.timer rt1) as [due|] eqn:Et.
      * destruct H as [Hshown [before [at_ [after [Hd [Hh Hdue]]]]]].
        rewrite Hshown. simpl. split; [reflexivity|].
        exists before, at_, (after ++ [(now, WriteResolved)])%list.
        split; [|split; [exact Hh | exact Hdue]].
        rewrite Hd, <- app_assoc. reflexivity.
      * rewrite H. simpl. split; [reflexivity|].
        exists done, now, []. split; [reflexivity|].
        split; [exact H | reflexivity].
    + apply commit_toast_kept; [reflexivity | now apply pending_more].
  - apply commit_toast_kept; [reflexivity | now apply pending_more].
Qed.

Lemma replay_pending (start : Runtime.Runtime)
    (events : list (N * ClipboardOutcome)) :
  Session.pending start [] start ->
  Session.pending start events (Session.replay events start).
Proof.
  intros H. induction events as [|[now outcome] events IH] using rev_ind.
  - exact H.
  - rewrite replay_app. simpl. apply click_pending. exact IH.
Qed.

(** X10.  Starting with the toast hidden, after any sequence of clicks
    on Copy the toast is shown at a time [t] only if one of the clicks
    was a successful export that found the toast hidden, the timer set
    at that export is the one pending after all the clicks, and [t] is
    less than 2000 ms after that export; from 2000 ms after it on the
    toast is hidden.  A rejected or ignored click never shows the
    toast, and an export made while the toast is shown does not
    prolong it. *)
Theorem X10_toast_only_within_2000_ms_of_the_export_that_showed_it :
  forall (events : list (N * ClipboardOutcome)) (rt : Runtime.Runtime) (t : N),
    showToast (Runtime.state rt) = false ->
    Runtime.timer rt = None ->
    AppJsx_toastAt t (Session.replay events rt) = true ->
    exists before now after,
      events = (before ++ (now, WriteResolved) :: after)%list
      /\ AppJsx_toastAt now (Session.replay before rt) = false
      /\ Runtime.timer (Session.replay events rt) = Some (now + 2000)%N
      /\ (t < now + 2000)%N
      /\ forall later,
           (now + 2000 <= later)%N ->
           AppJsx_toastAt later (Session.replay events rt) = false.
Proof.
  intros events rt t Hhidden Htimer Hshown.
  assert (H : Session.pending rt events (Session.replay events rt)).
  { apply replay_pending. unfold Session.pending. rewrite Htimer. exact Hhidden. }
  unfold Session.pending in H.
  unfold AppJsx_toastAt at 1, Runtime.toastAt, Runtime.advance in Hshown.
  destruct (Runtime.timer (Session.replay events rt)) as [due|] eqn:Et;
    [|congruence].
  destruct H as [Hs [before [now [after [Hd [Hh Hdue]]]]]].
  exists before, now, after.
  split; [exact Hd|]. split; [exact Hh|]. split; [congruence|]. split.
  - destruct (due <=? t)%N eqn:Hle.
    + unfold Runtime.commit in Hshown. simpl in Hshown. discriminate.
    + apply N.leb_gt in Hle. lia.
  - intros later Hlater.
    unfold AppJsx_toastAt, Runtime.toastAt, Runtime.advance. rewrite Et.
    assert (Hle : (due <=? later)%N = true) by (apply N.leb_le; lia).
    rewrite Hle. reflexivity.
Qed.

(** Exports at 0 ms and 1000 ms, seen at 1500 ms: the toast is the one
    of the export at 0 ms, and is hidden from 2000 ms on. *)
Lemma X10_toast_at_1500 :
  exists before now after,
    [(0, WriteResolved); (1000, WriteResolved)]%N
    = (before ++ (now, WriteResolved) :: after)%list
    /\ AppJsx_toastAt now (Session.replay before (live q1_results)) = false
    /\ Runtime.timer
         (Session.replay [(0, WriteResolved); (1000, WriteResolved)]%N
            (live q1_results))
       = Some (now + 2000)%N
    /\ (1500 < now + 2000)%N
    /\ forall later,
         (now + 2000 <= later)%N ->
         AppJsx_toastAt later
           (Session.replay [(0, WriteResolved); (1000, WriteResolved)]%N
              (live q1_results))
         = false.
Proof.
  exact (X10_toast_only_within_2000_ms_of_the_export_that_showed_it
           [(0, WriteResolved); (1000, WriteResolved)]%N (live q1_results) 1500
           eq_refl eq_refl eq_refl).
Defined.

(** In that session the export that showed the toast is the one at
    0 ms: the timer is due at 2000 ms, not at 3000 ms. *)
Example toast_of_the_first_export :
  Runtime.timer
    (Session.replay [(0, WriteResolved); (1000, WriteResolved)]%N
       (live q1_results))
  = Some 2000%N
  /\ AppJsx_toastAt 1999
       (Session.replay [(0, WriteResolved); (1000, WriteResolved)]%N
          (live q1_results)) = true
  /\ AppJsx_toastAt 2000
       (Session.replay [(0, WriteResolved); (1000, WriteResolved)]%N
          (live q1_results)) = false.
Proof. repeat split. Qed.

(* ================================================================== *)
(** * A response that arrives late *)
(* ================================================================== *)




(* ================================================================== *)
(** * Reading the exported text back *)
(* ================================================================== *)

Lemma free_of_append (c : ascii) (a b : string) :
  free_of c (a ++ b) = free_of c a && free_of c b.
Proof.
  induction a as [|x a IH]; simpl; [reflexivity|].
  rewrite IH. now rewrite andb_assoc.
Qed.

Lemma split_concat (c : ascii) (lines : list string) :
  lines <> [] ->
  forallb (free_of c) lines = true ->
  split c (String.concat (String c EmptyString) lines) = lines.
Proof.
  induction lines as [|x lines IH]; intros Hne H; [congruence|].
  simpl in H. apply andb_prop in H as [Hx Hl].
  destruct lines as [|y more].
  - simpl. apply free_of_split. exact Hx.
  - rewrite concat_cons.
    change (String c "" ++ String.concat (String c "") (y :: more))
      with (String c (String.concat (String c "") (y :: more))).
    rewrite (split_first c x _ Hx), (IH ltac:(discriminate) Hl). reflexivity.
Qed.

(** The text for a slide made of strings. *)
Lemma textToCopy_of_strings (content : Value) (t : string) (ps : list string) :
  get content "title" = Normal (JString t) ->
  get content "bulletPoints" = Normal (JArray (map JString ps)) ->
  AppJsx.textToCopy content
  = Normal ("Title:" ++ newline ++ t ++ newline ++ newline
            ++ "Bullet Points:" ++ newline
            ++ String.concat newline (map (fun p => "- " ++ p) ps)).
Proof.
  intros Ht Hb. unfold AppJsx.textToCopy. rewrite Ht, Hb. simpl.
  rewrite (map_items_strings (fun p => "- " ++ p)). reflexivity.
Qed.

(** The lines of the exported text. *)
Lemma export_lines (t : string) (ps : list string) :
  free_of "010" t = true ->
  forallb (free_of "010") ps = true ->
  split "010" ("Title:" ++ newline ++ t ++ newline ++ newline
               ++ "Bullet Points:" ++ newline
               ++ String.concat newline (map (fun p => "- " ++ p) ps))
  = "Title:" :: t :: "" :: "Bullet Points:"
    :: match ps with
       | [] => [""]
       | _ :: _ => map (fun p => "- " ++ p) ps
       end.
Proof.
  intros Ht Hps. unfold newline.
  change (split "010"
            ("Title:"
             ++ String "010"
                  (t ++ String "010"
                          ("" ++ String "010"
                                   ("Bullet Points:"
                                    ++ String "010"
                                         (String.concat (String "010" "")
                                            (map (fun p => "- " ++ p) ps))))))
          = "Title:" :: t :: "" :: "Bullet Points:"
            :: match ps with
               | [] => [""]
               | _ :: _ => map (fun p => "- " ++ p) ps
               end).
  rewrite (split_first "010" "Title:" _ eq_refl).
  rewrite (split_first "010" t _ Ht).
  rewrite (split_first "010" "" _ eq_refl).
  rewrite (split_first "010" "Bullet Points:" _ eq_refl).
  do 4 f_equal.
  destruct ps as [|p ps]; [reflexivity|].
  apply split_concat; [discriminate|].
  clear - Hps. induction (p :: ps) as [|q qs IH]; [reflexivity|].
  simpl in *. apply andb_prop in Hps as [Hq Hqs].
  rewrite Hq, (IH Hqs). reflexivity.
Qed.

Lemma prefixed_injective (prefix : string) (ps qs : list string) :
  map (fun p => prefix ++ p) ps = map (fun p => prefix ++ p) qs -> ps = qs.
Proof.
  revert qs. induction ps as [|p ps IH]; intros [|q qs] H; try discriminate.
  - reflexivity.
  - simpl in H. injection H as Hp Hr. f_equal; [|now apply IH].
    clear - Hp. induction prefix as [|c prefix IH]; simpl in Hp; [exact Hp|].
    injection Hp as Hp. now apply IH.
Qed.

Lemma Normal_injective (A : Type) (a b : A) : Normal a = Normal b -> a = b.
Proof. intros H. injection H as H. exact H. Qed.

(** X12.  When the title and the bullets hold no line break, the
    exported text splits at line breaks into Title:, the title, an empty
    line, Bullet Points: and one dash-prefixed line per bullet (a single
    empty line when there is no bullet); so two such slides with the
    same exported text have the same title and the same bullets. *)
Theorem X12_exported_text_determines_slide :
  forall (content content' : Value) (t t' : string) (ps ps' : list string),
    get content "title" = Normal (JString t) ->
    get content "bulletPoints" = Normal (JArray (map JString ps)) ->
    free_of "010" t = true ->
    forallb (free_of "010") ps = true ->
    get content' "title" = Normal (JString t') ->
    get content' "bulletPoints" = Normal (JArray (map JString ps')) ->
    free_of "010" t' = true ->
    forallb (free_of "010") ps' = true ->
    (exists text,
        AppJsx.textToCopy content = Normal text
        /\ split "010" text
           = "Title:" :: t :: "" :: "Bullet Points:"
             :: match ps with
                | [] => [""]
                | _ :: _ => map (fun p => "- " ++ p) ps
                end)
    /\ (AppJsx.textToCopy content = AppJsx.textToCopy content' ->
        t = t' /\ ps = ps').
Proof.
  intros content content' t t' ps ps' Ht Hb Hft Hfp Ht' Hb' Hft' Hfp'.
  split.
  - eexists. split; [apply (textToCopy_of_strings content t ps Ht Hb)|].
    apply export_lines; assumption.
  - rewrite (textToCopy_of_strings content t ps Ht Hb).
    rewrite (textToCopy_of_strings content' t' ps' Ht' Hb').
    intros H. apply Normal_injective in H.
    apply (f_equal (split "010")) in H.
    rewrite (export_lines t ps Hft Hfp), (export_lines t' ps' Hft' Hfp') in H.
    injection H as H1 H2. split; [exact H1|].
    destruct ps as [|p ps], ps' as [|p' ps']; try discriminate.
    + reflexivity.
    + now apply (prefixed_injective "- ").
Qed.

(** The first scenario's slide, with its fields in either order. *)
Lemma X12_q1_results_read_back :
  (exists text,
      AppJsx.textToCopy q1_results = Normal text
      /\ split "010" text
         = ["Title:"; "Q1 Results"; ""; "Bullet Points:";
            "- Revenue up 12%"; "- New markets opened"])
  /\ (AppJsx.textToCopy q1_results
      = AppJsx.textToCopy
          (JObject
             [("bulletPoints",
               JArray [JString "Revenue up 12%"; JString "New markets opened"]);
              ("title", JString "Q1 Results")]) ->
      "Q1 Results" = "Q1 Results"
      /\ ["Revenue up 12%"; "New markets opened"]
         = ["Revenue up 12%"; "New markets opened"]).
Proof.
  exact (X12_exported_text_determines_slide q1_results
           (JObject
              [("bulletPoints",
                JArray [JString "Revenue up 12%"; JString "New markets opened"]);
               ("title", JString "Q1 Results")])
           "Q1 Results" "Q1 Results"
           ["Revenue up 12%"; "New markets opened"]
           ["Revenue up 12%"; "New markets opened"]
           eq_refl eq_refl eq_refl eq_refl eq_refl eq_refl eq_refl eq_refl).
Defined.

(* ================================================================== *)
(** * A part without text *)
(* ================================================================== *)

Lemma parse_of_object_throws (props : list (string * Value)) :
  exists e, JSON.parse (JObject props) = Throw e.
Proof.
  unfold JSON.parse. simpl.
  destruct (has_own props "toString"); simpl; eexists; reflexivity.
Qed.

(** X13.  When the envelope leads to a truthy part whose [text] is
    missing, or is an object rather than a string, the request ends in
    error through the catch-all, with the slide content as it was: the
    message is the one thrown by [JSON.parse], not the generic one of
    the structural check, which such an envelope passes. *)
Theorem X13_part_without_text_ends_in_error :
  forall (apiKey : option string) (s : State) (response : Response)
         (result part text : Value),
    ToBoolean (base64ImageData s) = true ->
    ok response = true ->
    json response = Normal result ->
    AppJsx.content_part result = Normal part ->
    ToBoolean part = true ->
    get part "text" = Normal text ->
    text = JUndefined \/ (exists props, text = JObject props) ->
    let s' := run s (AppJsx.generateSlideContent apiKey s (FetchResolved response)) in
    status s' = st_error
    /\ slideContent s' = slideContent s
    /\ exists e,
         JSON.parse text = Throw e
         /\ error s' = "An error occurred: " ++ message e
         /\ error s' <> "An error occurred: Unexpected API response structure.".
Proof.
  intros apiKey s response result part text Hb Hok Hj Hc Hp Hg Htext s'.
  assert (Hthrow : exists e, JSON.parse text = Throw e
                             /\ message e <> "Unexpected API response structure.").
  { destruct Htext as [->|[props ->]].
    - eexists. split; [reflexivity | discriminate].
    - unfold JSON.parse. simpl.
      destruct (has_own props "toString"); simpl;
        eexists; (split; [reflexivity | discriminate]). }
  destruct Hthrow as [e [He Hm]].
  destruct (jsonText_of_part result part Hc Hp) as [text' [Hg' Ht]].
  rewrite Hg in Hg'. injection Hg' as <-.
  assert (Htry : AppJsx.try_block (FetchResolved response) = Throw e).
  { unfold AppJsx.try_block. rewrite Hok, Hj. simpl. rewrite Hc. simpl.
    rewrite Hp, Ht. simpl. rewrite He. reflexivity. }
  subst s'. rewrite (generate_caught apiKey s _ e Hb Htry). simpl.
  split; [reflexivity|]. split; [reflexivity|].
  exists e. split; [exact He|]. split; [reflexivity|].
  intros H. apply Hm.
  change ("An error occurred: " ++ message e)
    with (String.append "An error occurred: " (message e)) in H.
  simpl in H. repeat (injection H as H). exact H.
Qed.

(** A part that carries inline data and no text. *)
Lemma X13_part_with_inline_data_only :
  let response :=
    {| http_status := 200;
       json := Normal
                 (JObject
                    [("candidates",
                      JArray
                        [JObject
                           [("content",
                             JObject
                               [("parts",
                                 JArray
                                   [JObject
                                      [("inlineData", JObject [])]])])]])]) |} in
  let s' := run uploaded
              (AppJsx.generateSlideContent None uploaded (FetchResolved response)) in
  status s' = st_error /\ slideContent s' = JNull.
Proof.
  intros response.
  destruct (X13_part_without_text_ends_in_error None uploaded response
              _ _ JUndefined eq_refl eq_refl eq_refl eq_refl eq_refl eq_refl
              (or_introl eq_refl))
    as [H1 [H2 _]].
  exact (conj H1 H2).
Defined.

(* ================================================================== *)
(** * What every session keeps *)
(* ================================================================== *)

Lemma select_cases (apiKey : option string) (file : option File)
    (reader : ReaderOutcome) (outcome : FetchOutcome) (s : State) :
  Session.same_payload (base64ImageData s) (base64ImageData s) = true ->
  let s' := Session.select apiKey file reader outcome s in
  s' = s
  \/ (status s' = st_idle /\ error s' = "" /\ slideContent s' = JNull)
  \/ (status s' = st_success /\ error s' = "")
  \/ (status s' = st_error /\ slideContent s' = JNull
      /\ exists e, error s' = "An error occurred: " ++ message e).
Proof.
  intros Hpay.
  unfold Session.select, Session.select_trace. rewrite run_app.
  destruct file as [file|].
  2:{ left. simpl. unfold Session.requests. simpl.
      rewrite Hpay. reflexivity. }
  right.
  set (s1 := run s (AppJsx.handleImageUpload (Some file) reader)).
  assert (H1 : status s1 = st_idle /\ error s1 = "" /\ slideContent s1 = JNull).
  { subst s1. destruct reader; repeat split. }
  destruct H1 as [Hst [Herr Hsc]].
  destruct (Session.requests s s1) eqn:Hreq.
  - unfold Session.requests in Hreq. apply andb_prop in Hreq as [_ Ht].
    right.
    destruct (AppJsx.try_block outcome) as [parsedJson|e] eqn:Htry.
    + left. rewrite (generate_parsed apiKey s1 outcome parsedJson Ht Htry).
      simpl. auto.
    + right. rewrite (generate_caught apiKey s1 outcome e Ht Htry).
      simpl. repeat split; eauto.
  - left. simpl. auto.
Qed.

Lemma click_cases (now : N) (outcome : ClipboardOutcome) (rt : Runtime.Runtime) :
  let s := Runtime.state rt in
  let s' := Runtime.state (AppJsx_click now outcome rt) in
  (status s' = status s /\ error s' = error s /\ slideContent s' = slideContent s)
  \/ (status s = st_success /\ status s' = st_error
      /\ error s' = "Could not copy text to clipboard."
      /\ slideContent s' = slideContent s).
Proof.
  unfold AppJsx_click, Runtime.click. fold (AppJsx_advance now rt).
  destruct (advance_frame now rt) as [_ [_ [H3 [H4 H5]]]].
  set (rt1 := AppJsx_advance now rt) in *.
  unfold AppJsx.copyDisabled. rewrite H4.
  destruct (status (Runtime.state rt)) eqn:Hst; simpl; auto.
  unfold AppJsx.copyContentToClipboard.
  destruct (ToBoolean (slideContent (Runtime.state rt1))); simpl; auto.
  destruct (AppJsx.textToCopy (slideContent (Runtime.state rt1))) as [text|e];
    simpl; auto.
  destruct outcome; simpl; auto.
Qed.

(** X14.  In every session made of selections, each run to the settling
    of its request, and of clicks on Copy, starting from the mounted
    component: the error message is non-empty exactly while the status
    is error; an idle component holds no slide; the status is never
    left at loading; and the payload cell holds [null], [undefined] or
    a string. *)
Theorem X14_session_invariants :
  forall (apiKey : option string) (events : list Session.Event),
    let s := Runtime.state (Session.steps apiKey events Session.mounted) in
    (status s = st_error <-> error s <> "")
    /\ (status s = st_idle -> slideContent s = JNull)
    /\ status s <> st_loading
    /\ Session.same_payload (base64ImageData s) (base64ImageData s) = true.
Proof.
  intros apiKey events.
  assert (G : forall rt,
             ((status (Runtime.state rt) = st_error <-> error (Runtime.state rt) <> "")
              /\ (status (Runtime.state rt) = st_idle ->
                  slideContent (Runtime.state rt) = JNull)
              /\ status (Runtime.state rt) <> st_loading
              /\ Session.same_payload (base64ImageData (Runtime.state rt))
                   (base64ImageData (Runtime.state rt)) = true) ->
             let s := Runtime.state (Session.steps apiKey events rt) in
             (status s = st_error <-> error s <> "")
             /\ (status s = st_idle -> slideContent s = JNull)
             /\ status s <> st_loading
             /\ Session.same_payload (base64ImageData s) (base64ImageData s) = true).
  { induction events as [|e events IH]; intros rt H; [exact H|].
    simpl. apply IH. destruct H as [[He1 He2] [Hidle [Hload Hpay]]].
    destruct e as [file reader outcome|now outcome]; simpl.
    - pose proof (payload_cell_values apiKey file reader outcome
                    (Runtime.state rt) Hpay) as Hpay'.
      simpl in Hpay'.
      destruct (select_cases apiKey file reader outcome (Runtime.state rt) Hpay)
        as [Hs|[[H1 [H2 H3]]|[[H1 H2]|[H1 [H2 [e H3]]]]]].
      + rewrite Hs. repeat split; assumption.
      + rewrite H1, H2. repeat split; try assumption; try congruence.
      + rewrite H1, H2. repeat split; try assumption; try congruence.
      + rewrite H1, H3. repeat split; try assumption; try congruence.
        intros _. discriminate.
    - destruct (click_frame now outcome rt) as [_ [Hb _]].
      destruct (click_cases now outcome rt)
        as [[H1 [H2 H3]]|[H0 [H1 [H2 H3]]]]; simpl in *.
      + rewrite H1, H2, H3, Hb. repeat split; assumption.
      + rewrite H1, H2, Hb. repeat split; try assumption; try congruence. }
  apply G. repeat split; try discriminate; try congruence.
  intros H. exfalso. apply H. reflexivity.
Qed.
